(** * Master_Backend: the in-memory CRUD server and the calculator CLI

    A shallow embedding of

    - [Example_Ussage/Inbuilt_Modules/01_http/final/index.js]: the request
      listener passed to [http.createServer], with the module-level array
      [items] it mutates;
    - [Example_Ussage/Terminal_Input_Output/final1.js]: the function
      [Calculate].

    JavaScript numbers are IEEE 754 binary64 values, so they are Rocq's
    primitive floats: [===] on numbers is [PrimFloat.eqb] (NaN differs from
    everything, the two zeros are equal) and [/] is [PrimFloat.div].
    A string is a sequence of code units, each an [ascii]; the programs
    compare strings with ASCII literals, split them at [/] and scan them
    for digits.  The text of a body is kept as the host decodes it.

    The handlers run in the order the host calls them; a request is taken
    with its whole body, at the moment of its [end] event.  An exception
    that leaves the listener ends the process. *)

From Stdlib Require Import ZArith List String Ascii Bool Lia.
From Stdlib Require Import Floats.
Import ListNotations.

Set Warnings "-register-all".

Local Open Scope string_scope.

(** ** JavaScript values and the built-ins the two programs call *)

Module JS.

(** The values [JSON.parse] can return.  An object is the list of its own
    properties in creation order. *)
Inductive json : Type :=
| JNull
| JBool (b : bool)
| JNumber (n : float)
| JString (s : string)
| JArray (elems : list json)
| JObject (props : list (string * json)).

(** What a property read can yield: [undefined] for an absent property, or
    the JSON value stored there. *)
Inductive value : Type :=
| VUndefined
| VJson (j : json).

Definition is_string (v : value) : bool :=
  match v with
  | VJson (JString _) => true
  | _ => false
  end.

(** [a === b] and [a !== b] for two numbers. *)
Definition strict_eq (a b : float) : bool := PrimFloat.eqb a b.
Definition strict_neq (a b : float) : bool := negb (strict_eq a b).

(** The Number value for a mathematical integer: round to nearest, ties to
    even, overflow to an infinity.  [neg_zero] chooses the sign of a zero. *)
Definition number_of_Z (neg_zero : bool) (z : Z) : float :=
  SF2Prim (binary_normalize prec emax z 0 neg_zero).

(** Own-property lookup in a property list. *)
Fixpoint lookup (key : string) (props : list (string * json)) : option json :=
  match props with
  | [] => None
  | (k, v) :: rest => if String.eqb k key then Some v else lookup key rest
  end.

(** [j.name] for a parsed value [j]: reading a property of [null] throws a
    TypeError ([None]); an object yields its own property, or [undefined]
    when it has none (nothing on [Object.prototype] is called [name]); a
    boolean, number, string or array has no property of that name either. *)
Definition get_name (j : json) : option value :=
  match j with
  | JNull => None
  | JObject props =>
      Some (match lookup "name" props with
            | Some x => VJson x
            | None => VUndefined
            end)
  | JBool _ | JNumber _ | JString _ | JArray _ => Some VUndefined
  end.

(** [s.startsWith(p)]. *)
Definition startsWith (s p : string) : bool := String.prefix p s.

(** [s.split(sep)] for a separator of one code unit. *)
Fixpoint split (sep : ascii) (s : string) : list string :=
  match s with
  | EmptyString => [EmptyString]
  | String c rest =>
      if Ascii.eqb c sep then EmptyString :: split sep rest
      else match split sep rest with
           | [] => [String c EmptyString]
           | part :: parts => String c part :: parts
           end
  end.

(** [ToString] of the result of an array read [parts[i]], which is
    [undefined] past the end. *)
Definition index_to_string (parts : list string) (i : nat) : string :=
  match nth_error parts i with
  | Some s => s
  | None => "undefined"
  end.

(** White space and line terminators among the code units below 256:
    TAB, LF, VT, FF, CR, SP and NBSP. *)
Definition is_white_space (c : ascii) : bool :=
  let n := nat_of_ascii c in
  ((9 <=? n) && (n <=? 13) || (n =? 32) || (n =? 160))%nat.

Fixpoint trim_start (s : string) : string :=
  match s with
  | String c rest => if is_white_space c then trim_start rest else s
  | EmptyString => s
  end.

Definition digit_value (c : ascii) : option Z :=
  let n := nat_of_ascii c in
  if ((48 <=? n) && (n <=? 57))%nat then Some (Z.of_nat (n - 48)) else None.

(** The longest prefix of decimal digits, most significant first. *)
Fixpoint leading_digits (s : string) : list Z :=
  match s with
  | String c rest =>
      match digit_value c with
      | Some d => d :: leading_digits rest
      | None => []
      end
  | EmptyString => []
  end.

Definition decimal_value (ds : list Z) : Z :=
  fold_left (fun acc d => 10 * acc + d)%Z ds 0%Z.

(** [parseInt(s, 10)]: skip leading white space, take an optional sign,
    read the longest run of decimal digits; no digit gives NaN, otherwise
    the signed integer as a Number (a negative zero when the sign is [-]). *)
Definition parseInt (s : string) : float :=
  let t := trim_start s in
  let '(negative, u) :=
    match t with
    | String "-" rest => (true, rest)
    | String "+" rest => (false, rest)
    | _ => (false, t)
    end in
  match leading_digits u with
  | [] => nan
  | ds =>
      let m := decimal_value ds in
      number_of_Z negative (if negative then (- m)%Z else m)
  end.

End JS.

Import JS.

(** ** The CRUD server, [01_http/final/index.js] *)

Module Crud.

(** An element of [items]: the object literal [{ id: ..., name: ... }] built
    by the POST handler. *)
Record Item : Type := { id : float; name : value }.

(** What [response.end] is given: the HTML document, or the text
    [JSON.stringify] makes of [items] or of an object [{ message: ... }]. *)
Inductive Payload : Type :=
| Html (doc : string)
| JsonItems (items : list Item)
| JsonMessage (message : string).

(** The status and [Content-Type] passed to [response.writeHead] and the
    payload passed to [response.end]. *)
Record ServerResponse : Type :=
  { statusCode : Z; contentType : string; payload : Payload }.

(** The request as the listener reads it: [request.url], [request.method]
    and the chunks its [data] events deliver before [end], each a Buffer,
    one [ascii] a byte. *)
Record IncomingMessage : Type :=
  { url : string; method : string; chunks : list string }.

(** What [url.parse(u, true)] returns, as far as the listener reads it:
    [pathname], a string or [null]. *)
Record UrlObject : Type := { pathname : option string }.

(** [v === lit] for [v] a string or [null] and [lit] a string. *)
Definition same_string (v : option string) (lit : string) : bool :=
  match v with
  | Some s => s =? lit
  | None => false
  end.

(** *** Code that reads and writes [items] and may throw

    A piece of the listener takes the array [items] as it finds it and
    leaves it as it makes it, with a result, or with [None] when an
    exception left the piece.  A write made before a throw stays made. *)
Definition Step (A : Type) : Type := list Item -> option A * list Item.

Definition ret {A : Type} (a : A) : Step A := fun items => (Some a, items).

Definition bind {A B : Type} (m : Step A) (k : A -> Step B) : Step B :=
  fun items =>
    match m items with
    | (Some a, items') => k a items'
    | (None, items') => (None, items')
    end.

Notation "x <- m ;; k" := (bind m (fun x => k))
  (at level 61, m at next level, right associativity).
Notation "m ;; k" := (bind m (fun _ => k))
  (at level 61, right associativity).

(** A step that touches no array: it returns, or throws. *)
Definition lift {A : Type} (r : option A) : Step A := fun items => (r, items).

(** [try { body } catch (error) { handler }]. *)
Definition try_catch {A : Type} (body handler : Step A) : Step A :=
  fun items =>
    match body items with
    | (Some a, items') => (Some a, items')
    | (None, items') => handler items'
    end.

(** Reading the variable [items]. *)
Definition get_items : Step (list Item) := fun items => (Some items, items).

(** [items.push(newItem)]. *)
Definition items_push (newItem : Item) : Step unit :=
  fun items => (Some tt, (items ++ [newItem])%list).

(** [items = items.filter(keep)]. *)
Definition items_filter (keep : Item -> bool) : Step unit :=
  fun items => (Some tt, filter keep items).

Fixpoint find_index (p : Item -> bool) (items : list Item) : option nat :=
  match items with
  | [] => None
  | item :: rest =>
      if p item then Some 0%nat else option_map S (find_index p rest)
  end.

(** [items.find(p)]: the first element satisfying [p], or [undefined].  The
    element is an object and the array holds a reference to it; each
    element came from an object literal of its own, so the reference is
    known by the index at which the array holds it. *)
Definition items_find (p : Item -> bool) : Step (option nat) :=
  fun items => (Some (find_index p items), items).

Fixpoint update_at (i : nat) (f : Item -> Item) (items : list Item)
  : list Item :=
  match items, i with
  | [], _ => []
  | item :: rest, O => f item :: rest
  | item :: rest, S j => item :: update_at j f rest
  end.

(** [item.name = v] for the object behind the reference [i]. *)
Definition set_name (i : nat) (v : value) : Step unit :=
  fun items =>
    (Some tt, update_at i (fun item => {| id := id item; name := v |}) items).

(** [Date.now()] when the clock reads [clock] milliseconds. *)
Definition Date_now (clock : Z) : float := number_of_Z false clock.

(** The integer a number is, when it is one: [None] for NaN, for an
    infinity and for a number with a fraction. *)
Definition integer_value (x : float) : option Z :=
  match Prim2SF x with
  | S754_zero _ => Some 0%Z
  | S754_finite s m e =>
      let magnitude :=
        if (0 <=? e)%Z then Some (Zpos m * 2 ^ e)%Z
        else if (Zpos m mod 2 ^ (- e) =? 0)%Z
             then Some (Zpos m / 2 ^ (- e))%Z
             else None in
      option_map (fun z => if s then (- z)%Z else z) magnitude
  | S754_infinity _ | S754_nan => None
  end.

(** What the text [JSON.stringify] makes of a value says, read as JSON:
    the value itself, but a number that is NaN or an infinity is written
    [null] and a negative zero [0]. *)
Fixpoint written (j : json) : json :=
  match j with
  | JNumber n =>
      match Prim2SF n with
      | S754_nan | S754_infinity _ => JNull
      | S754_zero _ => JNumber zero
      | S754_finite _ _ _ => JNumber n
      end
  | JArray elems => JArray (map written elems)
  | JObject props => JObject (map (fun kv => (fst kv, written (snd kv))) props)
  | JNull | JBool _ | JString _ => j
  end.

(** [JSON.stringify(items)], read as JSON: an array with one object an
    item, its members [id] and then [name]; a property that is [undefined]
    is left out. *)
Definition listed (item : Item) : json :=
  JObject (("id", written (JNumber (id item)))
             :: match name item with
                | VJson j => [("name", written j)]
                | VUndefined => []
                end).

Definition listing (items : list Item) : json := JArray (map listed items).

(** [response.writeHead(code, { "Content-Type": "application/json" })] and
    [response.end] of a JSON text. *)
Definition json_response (code : Z) (p : Payload) : ServerResponse :=
  {| statusCode := code; contentType := "application/json"; payload := p |}.

(** The JSON value that the text given to [response.end] says; the HTML
    document is no JSON text. *)
Definition content (p : Payload) : option json :=
  match p with
  | Html _ => None
  | JsonItems items => Some (listing items)
  | JsonMessage message => Some (JObject [("message", JString message)])
  end.

(** [parseInt(parsedUrl.pathname.split("/")[2], 10)]. *)
Definition path_id (pathname : string) : float :=
  parseInt (index_to_string (split "/" pathname) 2).

Section Listener.

(** [url.parse(u, true)], which throws for some targets ([None]), the
    UTF-8 decoding [chunk.toString()] of a Buffer and [JSON.parse], whose
    SyntaxError is [None], belong to the host; the listener is read for
    any behaviour of theirs.  [htmlContent] is the document [serveUI]
    sends. *)
Variable url_parse : string -> option UrlObject.
Variable Buffer_toString : string -> string.
Variable JSON_parse : string -> option json.
Variable htmlContent : string.

(** [let body = ""; request.on("data", chunk => { body += chunk; })]: each
    chunk is decoded on its own as it is appended. *)
Definition read_body (request : IncomingMessage) : string :=
  fold_left (fun body chunk => body ++ Buffer_toString chunk)
    (chunks request) "".

(** [url.parse] gave the target of the request the pathname [p], a
    string. *)
Definition has_pathname (request : IncomingMessage) (p : string) : Prop :=
  url_parse (url request) = Some {| pathname := Some p |}.

Definition serveUI : ServerResponse :=
  {| statusCode := 200; contentType := "text/html";
     payload := Html htmlContent |}.

(** The [end] callback of POST /items. *)
Definition post_on_end (clock : Z) (body : string) : Step ServerResponse :=
  try_catch
    (parsedBody <- lift (JSON_parse body) ;;
     nm <- lift (get_name parsedBody) ;;
     let newItem := {| id := Date_now clock; name := nm |} in
     items_push newItem ;;
     ret (json_response 201 (JsonMessage "Item added")))
    (ret (json_response 400 (JsonMessage "Invalid request"))).

(** The [end] callback of PUT /items/.., [id0] being the [id] the listener
    parsed from the path. *)
Definition put_on_end (id0 : float) (body : string) : Step ServerResponse :=
  try_catch
    (parsedBody <- lift (JSON_parse body) ;;
     found <- items_find (fun item => strict_eq (id item) id0) ;;
     match found with
     | Some item =>
         nm <- lift (get_name parsedBody) ;;
         set_name item nm ;;
         ret (json_response 200 (JsonMessage "Item updated"))
     | None => ret (json_response 404 (JsonMessage "Item not found"))
     end)
    (ret (json_response 400 (JsonMessage "Invalid request"))).

(** The listener, for a request whose [end] event comes when the clock
    reads [clock]: from the array [items] before to the response written
    and the array after.  No [try] surrounds [url.parse] or the tests of
    the path: of a [null] pathname the tests by [===] are false, and the
    call of [startsWith] throws a TypeError. *)
Definition requestListener (clock : Z) (request : IncomingMessage)
  : Step ServerResponse :=
  parsedUrl <- lift (url_parse (url request)) ;;
  let method := method request in
  if same_string (pathname parsedUrl) "/" then
    ret serveUI
  else if same_string (pathname parsedUrl) "/items" && (method =? "GET") then
    items <- get_items ;;
    ret (json_response 200 (JsonItems items))
  else if same_string (pathname parsedUrl) "/items" && (method =? "POST") then
    post_on_end clock (read_body request)
  else
    p <- lift (pathname parsedUrl) ;;
    if startsWith p "/items/" && (method =? "PUT") then
      let id0 := path_id p in
      put_on_end id0 (read_body request)
    else if startsWith p "/items/" && (method =? "DELETE") then
      let id0 := path_id p in
      items_filter (fun item => strict_neq (id item) id0) ;;
      ret (json_response 200 (JsonMessage "Item deleted"))
    else
      ret (json_response 404 (JsonMessage "Not Found")).

(** The server over a sequence of requests, each with the clock reading at
    which it is handled; the store is [items], empty at start.  A request
    whose exception leaves the listener is the last one served. *)
Fixpoint serve (requests : list (Z * IncomingMessage)) (items : list Item)
  : list Item :=
  match requests with
  | [] => items
  | (clock, request) :: later =>
      match requestListener clock request items with
      | (Some _, items') => serve later items'
      | (None, items') => items'
      end
  end.

Definition reachable (items : list Item) : Prop :=
  exists requests, serve requests [] = items.

(** The request carries the name [v]: its body parses, and [v] is the
    [name] property of the parsed value. *)
Definition carries (request : IncomingMessage) (v : value) : Prop :=
  exists parsedBody,
    JSON_parse (read_body request) = Some parsedBody /\
    get_name parsedBody = Some v.

End Listener.

End Crud.

(** ** The routing table of the specification *)

Module Router.

Import Crud.






Section Handlers.

Variable Buffer_toString : string -> string.
Variable JSON_parse : string -> option json.
Variable htmlContent : string.


End Handlers.

End Router.

(** ** The calculator, [Terminal_Input_Output/final1.js] *)

Module Calculator.

(** [Calculate] returns a number or a message. *)
Inductive Result : Type :=
| Num (n : float)
| Msg (s : string).

Section Calculate.

(** [%] and [Math.pow] have no counterpart among the primitive floats. *)
Variable remainder : float -> float -> float.
Variable Math_pow : float -> float -> float.

(** The [switch] of [Calculate], with the [/] of its [div] case taken as
    [divide], so that a statement can say whether the case used it. *)
Definition Calculate_with (divide : float -> float -> float)
  (num1 num2 : float) (operation : string) : Result :=
  if operation =? "add" then Num (num1 + num2)
  else if operation =? "sub" then Num (num1 - num2)
  else if operation =? "div" then
    if strict_eq num2 0 then Msg "Error: Division by zero!"
    else Num (divide num1 num2)
  else if operation =? "mul" then Num (num1 * num2)
  else if operation =? "rem" then Num (remainder num1 num2)
  else if operation =? "pow" then Num (Math_pow num1 num2)
  else if operation =? "sqrt" then
    if (num1 <? 0)%float
    then Msg "Error: Cannot compute the square root of a negative number!"
    else Num (PrimFloat.sqrt num1)
  else Msg "Invalid operator".

(** [Calculate] itself: [/] is the division of binary64 numbers. *)
Definition Calculate : float -> float -> string -> Result :=
  Calculate_with PrimFloat.div.

End Calculate.

End Calculator.

(** ** A host for the examples *)

Module Sample.

(** The path of a request target in origin form: what comes before the
    first [?] or [#]. *)
Fixpoint pathname (u : string) : string :=
  match u with
  | EmptyString => EmptyString
  | String c rest =>
      if Ascii.eqb c "?" || Ascii.eqb c "#" then EmptyString
      else String c (pathname rest)
  end.

Definition quote : string := String "034" EmptyString.

(** The text of an object with the one property [name], a string. *)
Definition name_body (nm : string) : string :=
  "{" ++ quote ++ "name" ++ quote ++ ":" ++ quote ++ nm ++ quote ++ "}".

(** [JSON.parse] on the bodies the examples send.  They send no other
    text that [JSON.parse] accepts: the empty text, [{], [{oops] and [{oo]
    followed by [ps] are not JSON. *)
Definition JSON_parse (text : string) : option json :=
  if text =? "null" then Some JNull
  else if text =? "{}" then Some (JObject [])
  else if text =? "7" then Some (JNumber 7)
  else if text =? name_body "X" then Some (JObject [("name", JString "X")])
  else if text =? name_body "Y" then Some (JObject [("name", JString "Y")])
  else None.

Definition htmlContent : string := "<!DOCTYPE html>".

(** [url.parse] on the targets the examples use: it throws for a host in
    brackets left open, gives a [null] pathname for a scheme it does not
    know followed by a host alone, and the path before [?] or [#] for a
    target in origin form. *)
Definition url_parse (u : string) : option Crud.UrlObject :=
  if u =? "http://[::1/items" then None
  else if u =? "foo://host" then Some {| Crud.pathname := None |}
  else Some {| Crud.pathname := Some (pathname u) |}.

(** The bodies of the examples are ASCII, which UTF-8 decoding leaves as
    it is. *)
Definition Buffer_toString (chunk : string) : string := chunk.

Definition listener :=
  Crud.requestListener url_parse Buffer_toString JSON_parse htmlContent.

(** The text of an object whose [name] is the number [1e999], too large
    for a binary64 value: [JSON.parse] reads it as an infinity. *)
Definition overflow_body : string :=
  "{" ++ quote ++ "name" ++ quote ++ ":1e999}".

Definition JSON_parse_numbers (text : string) : option json :=
  if text =? overflow_body then Some (JObject [("name", JNumber infinity)])
  else JSON_parse text.

Definition request (m u : string) (body : list string) : Crud.IncomingMessage :=
  {| Crud.url := u; Crud.method := m; Crud.chunks := body |}.

Definition item (n : float) (nm : string) : Crud.Item :=
  {| Crud.id := n; Crud.name := VJson (JString nm) |}.

(** A store in which two items share the id 5. *)
Definition store : list Crud.Item := [item 7 "a"; item 5 "b"; item 5 "c"].

End Sample.

(** ** The earlier calculator, [second.js] and [third.js] *)

Module Basic.

Import Calculator.

Section Calculate.

Variable remainder : float -> float -> float.

(** [Calculate] as the two earlier files have it: five operators, no check
    before the division. *)
Definition Calculate (num1 num2 : float) (operation : string) : Result :=
  if operation =? "add" then Num (num1 + num2)
  else if operation =? "sub" then Num (num1 - num2)
  else if operation =? "div" then Num (num1 / num2)
  else if operation =? "mul" then Num (num1 * num2)
  else if operation =? "rem" then Num (remainder num1 num2)
  else Msg "Invalid operator".

End Calculate.

End Basic.

(** ** The command line of the calculator, [final1.js] after [Calculate] *)

Module Cli.

Import Calculator.

(** [isNaN(x)] for a number [x]. *)
Definition isNaN (x : float) : bool := PrimFloat.is_nan x.

Section Main.

(** [Number(s)] for a string [s] belongs to the host, as [%] and
    [Math.pow] do. *)
Variable Number_of_string : string -> float.
Variable remainder : float -> float -> float.
Variable Math_pow : float -> float -> float.

(** [Number(process.argv[i])]: the array read is [undefined] past the end,
    and [Number(undefined)] is NaN. *)
Definition Number (arg : option string) : float :=
  match arg with
  | Some s => Number_of_string s
  | None => nan
  end.

(** [operation !== "sqrt"], [operation] being a string or [undefined]. *)
Definition not_sqrt (operation : option string) : bool :=
  match operation with
  | Some op => negb (op =? "sqrt")
  | None => true
  end.

(** [Calculate(input1, input2, operation)] for an [operation] read from
    [process.argv]: no [case] label is [===] [undefined], which takes the
    [default] branch. *)
Definition Calculate_arg (num1 num2 : float) (operation : option string)
  : Result :=
  match operation with
  | Some op => Calculate remainder Math_pow num1 num2 op
  | None => Msg "Invalid operator"
  end.

(** The script after [Calculate], for the argument vector [process.argv]
    (the node binary, the script, then what the user typed): what its one
    [console.log] is given. *)
Definition main (argv : list string) : Result :=
  let input1 := Number (nth_error argv 2) in
  let input2 := Number (nth_error argv 3) in
  let operation := nth_error argv 4 in
  if isNaN input1 || (isNaN input2 && not_sqrt operation) then
    Msg "Error: Please provide valid numbers."
  else
    Calculate_arg input1 input2 operation.

End Main.

End Cli.

(** ** Counting the requests that create an item *)

Module Traffic.

Import Crud.

Section Counting.

Variable url_parse : string -> option UrlObject.

(** The request is one the listener gives to the POST handler. *)
Definition is_post (request : IncomingMessage) : bool :=
  match url_parse (url request) with
  | Some parsedUrl =>
      same_string (pathname parsedUrl) "/items" && (method request =? "POST")
  | None => false
  end.

Fixpoint posts (requests : list (Z * IncomingMessage)) : nat :=
  match requests with
  | [] => O
  | (_, request) :: later =>
      ((if is_post request then 1 else 0) + posts later)%nat
  end.

End Counting.

End Traffic.

(** ** The script of the page [serveUI] sends, [index.js] lines 24 to 91 *)

Module Ui.

Import Crud.

(** [s.trim()]: white space and line terminators go from both ends. *)
Fixpoint trim_end (s : string) : string :=
  match s with
  | EmptyString => EmptyString
  | String c rest =>
      match trim_end rest with
      | EmptyString =>
          if is_white_space c then EmptyString else String c EmptyString
      | kept => String c kept
      end
  end.

Definition trim (s : string) : string := trim_end (trim_start s).

(** [if (s)] for a string: the empty string alone is falsy. *)
Definition truthy (s : string) : bool := negb (s =? "").

(** What the page does: the form is submitted with [value] in its input;
    the Update button of a listed item is pressed and [prompt] returns
    [answer], [null] being [None]; its Delete button is pressed; the list
    is fetched. *)
Inductive Action : Type :=
| Submit (value : string)
| Update (item : Item) (answer : option string)
| Delete (item : Item)
| FetchItems.

Section Client.

(** [JSON.stringify({ name: s })], as the bytes [fetch] sends for it, and
    the text of a number in a template literal belong to the browser. *)
Variable JSON_stringify_name : string -> string.
Variable Number_toString : float -> string.

(** [fetch(u, { method: m, body: b })], as the request the server is
    given; the bytes of a body come as one chunk here. *)
Definition fetch (m u : string) (body : option string) : IncomingMessage :=
  {| url := u; method := m;
     chunks := match body with Some b => [b] | None => [] end |}.

Definition fetchItems : IncomingMessage := fetch "GET" "/items" None.

Definition updateItem (id0 : float) (newName : string) : IncomingMessage :=
  fetch "PUT" ("/items/" ++ Number_toString id0)
    (Some (JSON_stringify_name newName)).

Definition deleteItem (id0 : float) : IncomingMessage :=
  fetch "DELETE" ("/items/" ++ Number_toString id0) None.

(** The requests an action sends, in order: the submit listener sends
    nothing for a blank input, the Update button nothing when [prompt]
    returns [null] or the empty string; after a POST, PUT or DELETE the
    page fetches the list again. *)
Definition requests_of (a : Action) : list IncomingMessage :=
  match a with
  | Submit value =>
      let itemName := trim value in
      if truthy itemName
      then [fetch "POST" "/items" (Some (JSON_stringify_name itemName));
            fetchItems]
      else []
  | Update item answer =>
      match answer with
      | Some newName =>
          if truthy newName
          then [updateItem (id item) newName; fetchItems]
          else []
      | None => []
      end
  | Delete item => [deleteItem (id item); fetchItems]
  | FetchItems => [fetchItems]
  end.

(** The name an action puts in the body it sends. *)
Definition name_sent (a : Action) : option string :=
  match a with
  | Submit value => if truthy (trim value) then Some (trim value) else None
  | Update _ (Some newName) => if truthy newName then Some newName else None
  | _ => None
  end.

Section Session.

Variable url_parse : string -> option UrlObject.
Variable Buffer_toString : string -> string.
Variable JSON_parse : string -> option json.
Variable htmlContent : string.

(** The requests of a sequence of actions, each action with the clock
    reading at which the server handles what it sends, and the store the
    server is left with. *)
Definition traffic (actions : list (Z * Action))
  : list (Z * IncomingMessage) :=
  flat_map (fun '(clock, a) => map (pair clock) (requests_of a)) actions.

Definition session (actions : list (Z * Action)) (items : list Item)
  : list Item :=
  serve url_parse Buffer_toString JSON_parse htmlContent (traffic actions)
    items.

(** The text the page makes of a name is read back by the server as an
    object with that name: sent as one chunk, decoded and parsed. *)
Definition reads_back (s : string) : Prop :=
  JSON_parse (Buffer_toString (JSON_stringify_name s))
  = Some (JObject [("name", JString s)]).

End Session.

End Client.

End Ui.

(** [Subsequence l' l]: [l'] is [l] with some elements left out, the others
    in the order they had. *)
Inductive Subsequence {A : Type} : list A -> list A -> Prop :=
| Subsequence_nil : Subsequence [] []
| Subsequence_keep x l' l : Subsequence l' l -> Subsequence (x :: l') (x :: l)
| Subsequence_drop x l' l : Subsequence l' l -> Subsequence l' (x :: l).

(** ** Numbers: what [===] does with NaN and with zero *)

Section NumberFacts.

Lemma strict_eq_nan (x : float) : strict_eq x nan = false.
Proof.
  unfold strict_eq. rewrite eqb_spec.
  change (Prim2SF nan) with S754_nan.
  unfold SFeqb. destruct (Prim2SF x); reflexivity.
Qed.

Lemma strict_neq_nan (x : float) : strict_neq x nan = true.
Proof. unfold strict_neq. now rewrite strict_eq_nan. Qed.

(** [x === 0] holds of the two zeros and of nothing else. *)
Lemma strict_eq_zero (x : float) :
  strict_eq x 0 = true <-> x = zero \/ x = neg_zero.
Proof.
  unfold strict_eq. rewrite eqb_spec.
  change (Prim2SF 0) with (S754_zero false).
  split.
  - intro H. rewrite <- (SF2Prim_Prim2SF x).
    destruct (Prim2SF x) as [[|]| [|] | | [|] m e]; cbn in H;
      try discriminate; [right | left]; reflexivity.
  - intros [-> | ->]; reflexivity.
Qed.

(** A string without a leading digit, sign and white space apart, is not a
    number for [parseInt]. *)
Lemma parseInt_no_digit (s : string) :
  leading_digits
    (match trim_start s with
     | String "-" rest | String "+" rest => rest
     | t => t
     end) = [] ->
  parseInt s = nan.
Proof.
  unfold parseInt. intro H.
  destruct (trim_start s) as [|c rest]; [reflexivity|].
  destruct c as [[|] [|] [|] [|] [|] [|] [|] [|]];
    cbv beta iota in H |- *; rewrite H; reflexivity.
Qed.

End NumberFacts.

(** ** Lists: [filter], and the write through the result of [find] *)

Section ListFacts.

Context {A : Type}.

Lemma filter_Subsequence (p : A -> bool) (l : list A) :
  Subsequence (filter p l) l.
Proof.
  induction l as [|x l IH]; cbn.
  - constructor.
  - destruct (p x); now constructor.
Qed.

Lemma filter_keeps_all (p : A -> bool) (l : list A) :
  (forall x, In x l -> p x = true) -> filter p l = l.
Proof.
  induction l as [|x l IH]; cbn; intro H; [reflexivity|].
  rewrite (H x (or_introl eq_refl)). f_equal. apply IH.
  intros y Hy. apply H. now right.
Qed.

Lemma filter_length_split (p : A -> bool) (l : list A) :
  (List.length (filter p l) + List.length (filter (fun x => negb (p x)) l)
   = List.length l)%nat.
Proof.
  induction l as [|x l IH]; cbn; [reflexivity|].
  destruct (p x); cbn; lia.
Qed.

End ListFacts.

Section StoreFacts.

Import Crud.

(** [find_index] splits the list at its result: nothing before satisfies
    [p], the element there does. *)
Lemma find_index_some (p : Item -> bool) (items : list Item) : forall i,
  find_index p items = Some i ->
  exists before item after,
    items = (before ++ item :: after)%list /\ List.length before = i /\
    p item = true /\ (forall other, In other before -> p other = false).
Proof.
  induction items as [|y items IH]; cbn; intro i; [discriminate|].
  destruct (p y) eqn:Hy.
  - intros [= <-]. exists [], y, items. cbn. intuition.
  - destruct (find_index p items) as [j|]; cbn; [|discriminate].
    intros [= <-]. destruct (IH j eq_refl) as (before & item & after & -> & <- & Hp & Hb).
    exists (y :: before), item, after. cbn. repeat split; trivial.
    intros other [<- | Hother]; auto.
Qed.

Lemma find_index_none (p : Item -> bool) (items : list Item) :
  find_index p items = None <-> forall item, In item items -> p item = false.
Proof.
  induction items as [|y items IH]; cbn.
  - tauto.
  - destruct (p y) eqn:Hy.
    + split; [discriminate|]. intro H.
      specialize (H y (or_introl eq_refl)). congruence.
    + destruct (find_index p items) as [j|]; cbn.
      * split; [discriminate|]. intro H.
        assert (Some j = None) by (apply IH; intros item Hitem; apply H; now right).
        discriminate.
      * split; [|reflexivity]. intros _ item [<- | Hitem]; [exact Hy|].
        now apply (proj1 IH).
Qed.

Lemma find_index_exists (p : Item -> bool) (items : list Item) :
  (exists item, In item items /\ p item = true) ->
  exists i, find_index p items = Some i.
Proof.
  intros (item & Hin & Hp). destruct (find_index p items) as [i|] eqn:E.
  - now exists i.
  - rewrite (proj1 (find_index_none p items) E item Hin) in Hp. discriminate.
Qed.

(** The write of PUT, seen from the list: one element changes, in place. *)
Lemma update_at_split (f : Item -> Item) before item after :
  update_at (List.length before) f (before ++ item :: after)
  = (before ++ f item :: after)%list.
Proof. induction before as [|y before IH]; cbn; [|rewrite IH]; reflexivity. Qed.

Lemma update_at_In (f : Item -> Item) (items : list Item) : forall i item,
  In item (update_at i f items) ->
  In item items \/ exists old, In old items /\ item = f old.
Proof.
  induction items as [|y items IH]; intros [|i] item; cbn; try tauto.
  - intros [<- | H]; [right; exists y|]; auto.
  - intros [<- | H]; [auto|].
    destruct (IH i item H) as [Hin | (old & Hold & ->)]; [auto|].
    right. exists old. auto.
Qed.

End StoreFacts.

(** ** The listener, branch by branch *)

Section ListenerFacts.

Import Crud.

Variable url_parse : string -> option UrlObject.
Variable Buffer_toString : string -> string.
Variable JSON_parse : string -> option json.
Variable htmlContent : string.

Local Abbreviation listener :=
  (requestListener url_parse Buffer_toString JSON_parse htmlContent).
Local Abbreviation has_pathname := (Crud.has_pathname url_parse).
Local Abbreviation read_body := (Crud.read_body Buffer_toString).

(** Running a piece of the listener to its result and array. *)
Ltac run_step :=
  unfold post_on_end, put_on_end, try_catch, bind, lift, ret, get_items,
    items_push, items_filter, items_find, set_name.

(** A path under [/items/] is neither the root nor the collection. *)
Lemma under_items_not_collection (p : string) :
  startsWith p "/items/" = true -> (p =? "/") = false /\ (p =? "/items") = false.
Proof.
  intro H. split.
  - destruct (String.eqb_spec p "/") as [->|]; [discriminate H | reflexivity].
  - destruct (String.eqb_spec p "/items") as [->|]; [discriminate H | reflexivity].
Qed.

(** With [url.parse] done, the listener is its chain of tests on the
    pathname. *)
Lemma listener_parsed clock request p items :
  has_pathname request p ->
  listener clock request items
  = (if p =? "/" then
       ret (serveUI htmlContent)
     else if (p =? "/items") && (method request =? "GET") then
       bind get_items (fun items => ret (json_response 200 (JsonItems items)))
     else if (p =? "/items") && (method request =? "POST") then
       post_on_end JSON_parse clock (read_body request)
     else if startsWith p "/items/" && (method request =? "PUT") then
       put_on_end JSON_parse (path_id p) (read_body request)
     else if startsWith p "/items/" && (method request =? "DELETE") then
       bind (items_filter (fun item => strict_neq (id item) (path_id p)))
         (fun _ => ret (json_response 200 (JsonMessage "Item deleted")))
     else
       ret (json_response 404 (JsonMessage "Not Found"))) items.
Proof.
  intro Hp. unfold requestListener, bind at 1, lift at 1.
  rewrite Hp. cbn [pathname same_string].
  destruct (p =? "/"); [reflexivity|].
  destruct ((p =? "/items") && (method request =? "GET")); [reflexivity|].
  destruct ((p =? "/items") && (method request =? "POST")); reflexivity.
Qed.

(** When [url.parse] throws, or gives a [null] pathname, the exception
    leaves the listener: no response, and the store as it was. *)
Lemma listener_throws clock request items :
  url_parse (url request) = None
  \/ url_parse (url request) = Some {| pathname := None |} ->
  listener clock request items = (None, items).
Proof.
  unfold requestListener, bind at 1, lift at 1. intros [-> | ->]; reflexivity.
Qed.

Lemma listener_post clock request items :
  has_pathname request "/items" -> method request = "POST" ->
  listener clock request items
  = post_on_end JSON_parse clock (read_body request) items.
Proof. intros Hp Hm. rewrite (listener_parsed _ _ _ _ Hp), Hm. reflexivity. Qed.

Lemma listener_put clock request p items :
  has_pathname request p ->
  startsWith p "/items/" = true -> method request = "PUT" ->
  listener clock request items
  = put_on_end JSON_parse (path_id p) (read_body request) items.
Proof.
  intros Hp Hs Hm. rewrite (listener_parsed _ _ _ _ Hp).
  destruct (under_items_not_collection _ Hs) as [-> ->].
  now rewrite Hs, Hm.
Qed.

Lemma listener_delete clock request p items :
  has_pathname request p ->
  startsWith p "/items/" = true ->
  method request = "DELETE" ->
  listener clock request items
  = (Some (json_response 200 (JsonMessage "Item deleted")),
     filter (fun item => strict_neq (id item) (path_id p)) items).
Proof.
  intros Hp Hs Hm. rewrite (listener_parsed _ _ _ _ Hp).
  destruct (under_items_not_collection _ Hs) as [-> ->].
  now rewrite Hs, Hm.
Qed.

(** C5.  POST /items with a body [JSON.parse] rejects: the response is 400
    with the message "Invalid request", and the store is the one before
    (so its length is the one before). *)
Theorem post_unparsable_body_rejected clock request items :
  has_pathname request "/items" -> method request = "POST" ->
  JSON_parse (read_body request) = None ->
  exists response items',
    listener clock request items = (Some response, items') /\
    statusCode response = 400%Z /\
    payload response = JsonMessage "Invalid request" /\
    items' = items /\
    List.length items' = List.length items.
Proof.
  intros Hp Hm Hbody. rewrite (listener_post _ _ _ Hp Hm).
  run_step. rewrite Hbody. do 2 eexists. repeat split.
Qed.

(** C8.  DELETE /items/.. whose segment [parseInt] turns into NaN: no id is
    [===] NaN, the filter keeps every item, and the response is still 200
    with the message "Item deleted". *)
Theorem delete_nan_id_keeps_store clock request p items :
  has_pathname request p ->
  startsWith p "/items/" = true ->
  method request = "DELETE" ->
  path_id p = nan ->
  listener clock request items
  = (Some (json_response 200 (JsonMessage "Item deleted")), items).
Proof.
  intros Hp Hs Hm Hnan. rewrite (listener_delete _ _ _ _ Hp Hs Hm), Hnan.
  f_equal. apply filter_keeps_all. intros item _. apply strict_neq_nan.
Qed.

(** C3.  DELETE /items/..: the store after is the store before without the
    items whose id is [===] the parsed id.  Every such item goes (however
    many there are), every other item stays, in the order it had, and the
    response is 200 whether or not an item went. *)
Theorem delete_removes_all_matching clock request p items :
  has_pathname request p ->
  startsWith p "/items/" = true ->
  method request = "DELETE" ->
  let id0 := path_id p in
  exists items',
    listener clock request items
    = (Some (json_response 200 (JsonMessage "Item deleted")), items') /\
    (forall item, In item items' <->
                  In item items /\ strict_eq (id item) id0 = false) /\
    Subsequence items' items /\
    (List.length items'
     + List.length (filter (fun item => strict_eq (id item) id0) items)
     = List.length items)%nat.
Proof.
  intros Hp Hs Hm. cbv zeta. rewrite (listener_delete _ _ _ _ Hp Hs Hm).
  eexists. split; [reflexivity|]. split; [|split].
  - intro item. rewrite filter_In. unfold strict_neq.
    now rewrite negb_true_iff.
  - apply filter_Subsequence.
  - rewrite (filter_ext (fun item => strict_eq (id item) _)
                        (fun item => negb (strict_neq (id item) (path_id p)))).
    + apply (filter_length_split
               (fun item => strict_neq (id item) (path_id p))).
    + intro item. unfold strict_neq. symmetry. apply negb_involutive.
Qed.

(** C7.  A PUT /items/.. answered 200 wrote the name of one item, the first
    whose id is [===] the parsed id: its id, the items before and after it,
    their order and the length of the store are as they were. *)
Theorem put_writes_one_name clock request p items response items' :
  has_pathname request p ->
  startsWith p "/items/" = true ->
  method request = "PUT" ->
  listener clock request items = (Some response, items') ->
  statusCode response = 200%Z ->
  let id0 := path_id p in
  exists before item after nm,
    items = (before ++ item :: after)%list /\
    (forall other, In other before -> strict_eq (id other) id0 = false) /\
    strict_eq (id item) id0 = true /\
    items' = (before ++ {| id := id item; name := nm |} :: after)%list /\
    map id items' = map id items /\
    List.length items' = List.length items.
Proof.
  intros Hp Hs Hm. rewrite (listener_put _ _ _ _ Hp Hs Hm). cbv zeta. run_step.
  destruct (JSON_parse (read_body request)) as [parsedBody|];
    [|intros [= <- <-]; discriminate].
  destruct (find_index _ items) as [i|] eqn:Hfind;
    [|intros [= <- <-]; discriminate].
  destruct (get_name parsedBody) as [nm|];
    [|intros [= <- <-]; discriminate].
  intros [= <- <-] _.
  destruct (find_index_some _ _ _ Hfind)
    as (before & found & after & -> & <- & Hfound & Hbefore).
  exists before, found, after, nm. rewrite update_at_split.
  repeat split; trivial.
  - now rewrite !map_app.
  - now rewrite !length_app.
Qed.

(** C9.  POST /items answers 400 exactly when [JSON.parse] rejects the body
    or returns [null].  Any other parsed value gives 201 and one appended
    item whose name is the value's [name] property: that of an object when
    it has one, [undefined] for an object without it and for a boolean, a
    number, a string or an array. *)
Theorem post_status_by_body clock request items :
  has_pathname request "/items" -> method request = "POST" ->
  let body := read_body request in
  exists response items',
    listener clock request items = (Some response, items') /\
    (statusCode response = 400%Z <->
     JSON_parse body = None \/ JSON_parse body = Some JNull) /\
    (forall parsedBody,
        JSON_parse body = Some parsedBody -> parsedBody <> JNull ->
        exists nm,
          get_name parsedBody = Some nm /\
          nm = match parsedBody with
               | JObject props =>
                   match lookup "name" props with
                   | Some x => VJson x
                   | None => VUndefined
                   end
               | _ => VUndefined
               end /\
          response = json_response 201 (JsonMessage "Item added") /\
          items' = (items ++ [{| id := Date_now clock; name := nm |}])%list).
Proof.
  intros Hp Hm. cbv zeta. rewrite (listener_post _ _ _ Hp Hm). run_step.
  destruct (JSON_parse (read_body request)) as [parsedBody|].
  - destruct parsedBody; cbn; do 2 eexists; (split; [reflexivity|]); cbn;
      (split;
       [ split; intro H;
         solve [ discriminate | reflexivity | now right
               | destruct H; discriminate ]
       | intros parsedBody [= <-] Hnull; try congruence;
         eexists; repeat split ]).
  - do 2 eexists. split; [reflexivity|]. cbn. split; [intuition|].
    intros parsedBody [=].
Qed.

(** C2, as the code has it.  PUT /items/.. with a body that parses to a
    value other than [null]: when some item's id is [===] the parsed id,
    the first such item gets the body's [name] and the response is 200;
    when none is, the response is 404 and the store is as it was (this
    also for a body that parses to [null]).  A body [JSON.parse] rejects
    is answered 400, and so is a body that parses to [null] when an item
    matches; the store is as it was in both cases. *)
Theorem put_outcomes clock request p items :
  has_pathname request p ->
  startsWith p "/items/" = true ->
  method request = "PUT" ->
  let id0 := path_id p in
  let body := read_body request in
  let outcome := listener clock request items in
  let matching := exists item, In item items /\ strict_eq (id item) id0 = true in
  (forall parsedBody,
      JSON_parse body = Some parsedBody -> parsedBody <> JNull -> matching ->
      exists before item after nm,
        get_name parsedBody = Some nm /\
        items = (before ++ item :: after)%list /\
        (forall other, In other before -> strict_eq (id other) id0 = false) /\
        strict_eq (id item) id0 = true /\
        outcome
        = (Some (json_response 200 (JsonMessage "Item updated")),
           (before ++ {| id := id item; name := nm |} :: after)%list)) /\
  (forall parsedBody,
      JSON_parse body = Some parsedBody -> ~ matching ->
      outcome = (Some (json_response 404 (JsonMessage "Item not found")), items)) /\
  (JSON_parse body = None ->
   outcome = (Some (json_response 400 (JsonMessage "Invalid request")), items)) /\
  (JSON_parse body = Some JNull -> matching ->
   outcome = (Some (json_response 400 (JsonMessage "Invalid request")), items)).
Proof.
  intros Hp Hs Hm. cbv zeta. rewrite (listener_put _ _ _ _ Hp Hs Hm). run_step.
  set (id0 := path_id p).
  set (q := fun item : Item => strict_eq (id item) id0).
  split; [|split; [|split]].
  - intros parsedBody Hbody Hnull Hmatch. rewrite Hbody.
    destruct (find_index_exists q items Hmatch) as [i Hfind]. rewrite Hfind.
    destruct (find_index_some _ _ _ Hfind)
      as (before & found & after & -> & <- & Hfound & Hbefore).
    destruct (get_name parsedBody) as [nm|] eqn:Hname;
      [|destruct parsedBody; cbn in Hname; congruence].
    exists before, found, after, nm. rewrite update_at_split.
    repeat split; trivial.
  - intros parsedBody Hbody Hnone. rewrite Hbody.
    destruct (find_index q items) as [i|] eqn:Hfind; [|reflexivity].
    exfalso. apply Hnone.
    destruct (find_index_some _ _ _ Hfind)
      as (before & found & after & -> & _ & Hfound & _).
    exists found. split; [|exact Hfound].
    apply in_or_app. right. now left.
  - intros ->. reflexivity.
  - intros -> Hmatch. destruct (find_index_exists q items Hmatch) as [i ->].
    reflexivity.
Qed.

End ListenerFacts.

(** ** The clock reading as a number *)

Section ClockFacts.

Local Open Scope Z_scope.

Lemma digits2_pos_lower (p : positive) :
  2 ^ (Zpos (digits2_pos p) - 1) <= Zpos p.
Proof.
  induction p as [p IH | p IH |]; cbn [digits2_pos].
  - rewrite Pos2Z.inj_succ.
    replace (Z.succ (Zpos (digits2_pos p)) - 1) with (Z.succ (Zpos (digits2_pos p) - 1)) by lia.
    rewrite Z.pow_succ_r by lia. lia.
  - rewrite Pos2Z.inj_succ.
    replace (Z.succ (Zpos (digits2_pos p)) - 1) with (Z.succ (Zpos (digits2_pos p) - 1)) by lia.
    rewrite Z.pow_succ_r by lia. lia.
  - cbn. lia.
Qed.

Lemma digits2_pos_bound (p : positive) (n : Z) :
  0 <= n -> Zpos p < 2 ^ n -> Zpos (digits2_pos p) <= n.
Proof.
  intros Hn Hp. pose proof (digits2_pos_lower p) as Hlow.
  destruct (Z_le_gt_dec (Zpos (digits2_pos p)) n) as [|Hgt]; [assumption|].
  exfalso. assert (2 ^ n <= 2 ^ (Zpos (digits2_pos p) - 1))
    by (apply Z.pow_le_mono_r; lia). lia.
Qed.

Lemma iter_xO_digits (p k : positive) :
  digits2_pos (Pos.iter xO p k) = (digits2_pos p + k)%positive.
Proof.
  induction k as [|k IH] using Pos.peano_ind.
  - cbn. lia.
  - rewrite Pos.iter_succ. cbn [digits2_pos]. rewrite IH. lia.
Qed.

Lemma iter_xO_value (p k : positive) :
  Zpos (Pos.iter xO p k) = Zpos p * 2 ^ Zpos k.
Proof.
  induction k as [|k IH] using Pos.peano_ind.
  - cbn. lia.
  - rewrite Pos.iter_succ, Pos2Z.inj_succ, Z.pow_succ_r by lia.
    rewrite Pos2Z.inj_xO, IH. lia.
Qed.

Lemma round_full_mantissa (m : positive) (e : Z) :
  digits2_pos m = 53%positive -> -1074 <= e <= 971 ->
  binary_round_aux prec emax false (Zpos m) e loc_Exact = S754_finite false m e.
Proof.
  intros Hd He. unfold binary_round_aux, shr_fexp, fexp, SpecFloat.emin, prec, emax.
  cbn [Zdigits2 shr_record_of_loc]. rewrite Hd.
  replace (Z.max (53 + e - 53) (3 - 1024 - 53) - e) with 0 by lia.
  cbn [shr shr_m loc_of_shr_record round_nearest_even Zdigits2 shr_record_of_loc].
  rewrite Hd.
  replace (Z.max (53 + e - 53) (3 - 1024 - 53) - e) with 0 by lia.
  cbn [shr shr_m]. 
  replace (e <=? 1024 - 53) with true by (symmetry; apply Z.leb_le; lia).
  reflexivity.
Qed.

Lemma normalize_small (p : positive) :
  Zpos p < 2 ^ 53 ->
  exists m e,
    binary_normalize prec emax (Zpos p) 0 false = S754_finite false m e /\
    valid_binary (S754_finite false m e) = true /\
    e <= 0 /\ Zpos m = Zpos p * 2 ^ (- e).
Proof.
  intro Hp. pose proof (digits2_pos_bound p 53 ltac:(lia) Hp) as Hd.
  unfold binary_normalize, binary_round.
  assert (Hf : fexp prec emax (Zpos (digits2_pos p) + 0)
               = Zpos (digits2_pos p) - 53)
    by (unfold fexp, SpecFloat.emin, prec, emax; lia).
  rewrite Hf. unfold shl_align. rewrite Z.sub_0_r.
  destruct (Zpos (digits2_pos p) - 53) as [|k|k] eqn:Hk; [| lia |].
  - exists p, 0. assert (Hd53 : digits2_pos p = 53%positive) by lia.
    rewrite (round_full_mantissa p 0 Hd53) by lia.
    repeat split; try lia.
    unfold SpecFloat.valid_binary, bounded, canonical_mantissa, fexp,
      SpecFloat.emin, prec, emax.
    rewrite Hd53. reflexivity.
  - exists (Pos.iter xO p k), (Zneg k).
    assert (Hd53 : digits2_pos (Pos.iter xO p k) = 53%positive)
      by (rewrite iter_xO_digits; lia).
    rewrite (round_full_mantissa _ (Zneg k) Hd53) by lia.
    repeat split; try lia.
    + unfold SpecFloat.valid_binary, bounded, canonical_mantissa, fexp,
        SpecFloat.emin, prec, emax.
      rewrite Hd53.
      apply andb_true_iff. split; [apply Z.eqb_eq | apply Z.leb_le]; lia.
    + rewrite iter_xO_value. reflexivity.
Qed.

Lemma number_of_Z_integer (z : Z) :
  0 <= z < 2 ^ 53 -> Crud.integer_value (number_of_Z false z) = Some z.
Proof.
  intros [H0 H53]. unfold Crud.integer_value, number_of_Z.
  destruct z as [|p|p]; [reflexivity | | lia].
  destruct (normalize_small p H53) as (m & e & -> & Hvalid & He & Hm).
  rewrite (Prim2SF_SF2Prim _ Hvalid).
  destruct (Z.leb_spec 0 e) as [Hle|Hlt].
  - assert (e = 0) by lia. subst e. cbn [option_map]. f_equal.
    rewrite Hm. cbn. lia.
  - rewrite Hm, Z.mod_mul, Z.div_mul by (apply Z.pow_nonzero; lia).
    reflexivity.
Qed.

(** The Number of a clock reading is written by [JSON.stringify] as it
    is. *)
Lemma written_clock (z : Z) :
  0 <= z < 2 ^ 53 ->
  Crud.written (JNumber (number_of_Z false z)) = JNumber (number_of_Z false z).
Proof.
  intros [H0 H53]. destruct z as [|p|p]; [reflexivity | | lia].
  unfold number_of_Z. destruct (normalize_small p H53) as (m & e & -> & Hvalid & _).
  cbn [Crud.written]. now rewrite (Prim2SF_SF2Prim _ Hvalid).
Qed.

End ClockFacts.

(** ** The listener against the table, and what the store holds *)

Section TableFacts.

Import Crud.

Variable url_parse : string -> option UrlObject.
Variable Buffer_toString : string -> string.
Variable JSON_parse : string -> option json.
Variable htmlContent : string.

Local Abbreviation listener :=
  (requestListener url_parse Buffer_toString JSON_parse htmlContent).
Local Abbreviation has_pathname := (Crud.has_pathname url_parse).
Local Abbreviation read_body := (Crud.read_body Buffer_toString).

Ltac run_step :=
  unfold post_on_end, put_on_end, try_catch, bind, lift, ret, get_items,
    items_push, items_filter, items_find, set_name.


Lemma listing_app (items : list Item) (item : Item) :
  listing (items ++ [item])
  = JArray (map listed items ++ [listed item]).
Proof. unfold listing. now rewrite map_app. Qed.

(** C1, as the code has it.  POST /items with a body that parses to a value
    other than [null]: one item is appended, its id the [Date.now()] of the
    moment, an integer for a clock reading from 0 up to 2^53, and its name
    the [name] property of the parsed body; the response is 201; and a GET
    /items that follows answers 200 with the text of the store, which says
    an array with the elements it had and one more at its end: its id the
    clock reading and its name the posted one as [JSON.stringify] writes
    it, a string as it is and no member at all for [undefined].  A body
    that parses to [null] is answered 400 and nothing is appended. *)
Theorem post_appends_one_item clock request items :
  has_pathname request "/items" -> method request = "POST" ->
  (forall parsedBody,
      JSON_parse (read_body request) = Some parsedBody ->
      parsedBody <> JNull ->
      exists nm,
        get_name parsedBody = Some nm /\
        let newItem := {| id := Date_now clock; name := nm |} in
        listener clock request items
        = (Some (json_response 201 (JsonMessage "Item added")),
           (items ++ [newItem])%list) /\
        ((0 <= clock < 2 ^ 53)%Z -> integer_value (id newItem) = Some clock) /\
        forall clock' request',
          has_pathname request' "/items" -> method request' = "GET" ->
          listener clock' request' (items ++ [newItem])%list
          = (Some (json_response 200 (JsonItems (items ++ [newItem])%list)),
             (items ++ [newItem])%list) /\
          content (JsonItems items) = Some (JArray (map listed items)) /\
          content (JsonItems (items ++ [newItem])%list)
          = Some (JArray (map listed items ++ [listed newItem])) /\
          ((0 <= clock < 2 ^ 53)%Z ->
           listed newItem
           = JObject (("id", JNumber (Date_now clock))
                        :: match nm with
                           | VJson j => [("name", written j)]
                           | VUndefined => []
                           end) /\
           forall s, nm = VJson (JString s) ->
                     listed newItem
                     = JObject [("id", JNumber (Date_now clock));
                                ("name", JString s)])) /\
  (JSON_parse (read_body request) = Some JNull ->
   listener clock request items
   = (Some (json_response 400 (JsonMessage "Invalid request")), items)).
Proof.
  intros Hp Hm. split.
  - intros parsedBody Hbody Hnull.
    destruct (get_name parsedBody) as [nm|] eqn:Hname;
      [|destruct parsedBody; cbn in Hname; congruence].
    exists nm. split; [reflexivity|]. cbv zeta. split; [|split].
    + rewrite (listener_post _ _ _ _ _ _ _ Hp Hm). run_step.
      now rewrite Hbody, Hname.
    + intro Hclock. apply number_of_Z_integer, Hclock.
    + intros clock' request' Hp' Hm'. split; [|split; [|split]].
      * rewrite (listener_parsed _ _ _ _ _ _ _ _ Hp'), Hm'. reflexivity.
      * reflexivity.
      * cbn [content]. now rewrite listing_app.
      * intro Hclock.
        assert (Hlisted :
                  listed {| id := Date_now clock; name := nm |}
                  = JObject (("id", JNumber (Date_now clock))
                               :: match nm with
                                  | VJson j => [("name", written j)]
                                  | VUndefined => []
                                  end)).
        { unfold listed. cbn [id name]. unfold Date_now.
          now rewrite (written_clock clock Hclock). }
        split; [exact Hlisted|]. intros s ->. exact Hlisted.
  - intro Hbody. rewrite (listener_post _ _ _ _ _ _ _ Hp Hm). run_step.
    now rewrite Hbody.
Qed.

(** Where an item of the store after a request comes from: it was there
    before, with this id, and has the name it had or the one the request
    carries; or the request created it. *)
Lemma listener_item_origin clock request items item :
  In item (snd (listener clock request items)) ->
  (exists old, In old items /\ id item = id old /\
               (name item = name old \/ carries Buffer_toString JSON_parse request (name item)))
  \/ (id item = Date_now clock /\ carries Buffer_toString JSON_parse request (name item)).
Proof.
  assert (Hsame : In item items ->
                  exists old, In old items /\ id item = id old /\
                    (name item = name old
                     \/ carries Buffer_toString JSON_parse request (name item)))
    by (intro H; exists item; auto).
  destruct (url_parse (url request)) as [[[p|]]|] eqn:Hparse;
    [ | rewrite listener_throws by auto; cbn; auto
      | rewrite listener_throws by auto; cbn; auto ].
  rewrite (listener_parsed _ _ _ _ _ _ _ _ Hparse).
  destruct (_ =? "/"); [cbn; auto|].
  destruct (_ && _); [cbn; auto|].
  destruct (_ && _).
  - run_step.
    destruct (JSON_parse (read_body request)) as [parsedBody|] eqn:Hbody;
      [|cbn; auto].
    destruct (get_name parsedBody) as [nm|] eqn:Hname; [|cbn; auto].
    cbn [snd]. intro H. apply in_app_or in H as [H | [<- | []]]; [auto|].
    right. cbn. split; [reflexivity|]. now exists parsedBody.
  - destruct (_ && _).
    + run_step.
      destruct (JSON_parse (read_body request)) as [parsedBody|] eqn:Hbody;
        [|cbn; auto].
      destruct (find_index _ items); [|cbn; auto].
      destruct (get_name parsedBody) as [nm|] eqn:Hname; [|cbn; auto].
      cbn [snd]. intro H. left.
      destruct (update_at_In _ _ _ _ H) as [Hin | (old & Hold & ->)]; [auto|].
      exists old. cbn. repeat split; trivial. right. now exists parsedBody.
    + destruct (_ && _); cbn [snd]; [|cbn; auto].
      run_step. cbn [snd]. intro H. apply filter_In in H as [H _]. auto.
Qed.

Lemma serve_item_origin requests : forall items item,
  In item (serve url_parse Buffer_toString JSON_parse htmlContent requests items) ->
  (exists old, In old items /\ id item = id old /\ name item = name old)
  \/ ((exists old, In old items /\ id item = id old)
       \/ (exists clock request,
             In (clock, request) requests /\ id item = Date_now clock))
      /\ (exists clock request,
             In (clock, request) requests
             /\ carries Buffer_toString JSON_parse request (name item)).
Proof.
  induction requests as [|[clock request] later IH]; intros items item; cbn [serve].
  - intro H. left. exists item. auto.
  - assert (Hstep : In item (snd (listener clock request items)) ->
              (exists old, In old items /\ id item = id old /\ name item = name old)
              \/ ((exists old, In old items /\ id item = id old)
                  \/ (exists c r, In (c, r) ((clock, request) :: later)
                                  /\ id item = Date_now c))
                 /\ (exists c r, In (c, r) ((clock, request) :: later)
                                 /\ carries Buffer_toString JSON_parse r (name item))).
    { intro Hmid. destruct (listener_item_origin _ _ _ _ Hmid)
        as [(old & Hold & Hid' & [Hn | Hn]) | [Hid' Hn]].
      - left. exists old. auto.
      - right. split; [left; exists old; auto|].
        exists clock, request. cbn. auto.
      - right. split; [right|]; exists clock, request; cbn; auto. }
    destruct (listener clock request items) as [[response|] items'] eqn:Hrun;
      cbn [snd] in Hstep; [|exact Hstep].
    intro H. apply IH in H as [(mid & Hmid & Hid & Hname) | [Hid Hname]].
    + assert (Hone : In mid (snd (listener clock request items)))
        by (rewrite Hrun; exact Hmid).
      destruct (listener_item_origin _ _ _ _ Hone)
        as [(old & Hold & Hid' & [Hn | Hn]) | [Hid' Hn]]; rewrite Hid, Hname.
      * left. exists old. auto.
      * right. split; [left; exists old; auto|].
        exists clock, request. cbn. auto.
      * right. split; [right|]; exists clock, request; cbn; auto.
    + right. split.
      * destruct Hid as [(mid & Hmid & Hid) | (c & r & Hin & Hid)].
        -- rewrite Hid.
           assert (Hone : In mid (snd (listener clock request items)))
             by (rewrite Hrun; exact Hmid).
           destruct (listener_item_origin _ _ _ _ Hone)
             as [(old & Hold & Hid' & _) | [Hid' _]].
           ++ left. exists old. auto.
           ++ right. exists clock, request. cbn. auto.
        -- right. exists c, r. cbn. auto.
      * destruct Hname as (c & r & Hin & Hc). exists c, r. cbn. auto.
Qed.

(** C6, as the code has it.  Every item of a store reached from the empty
    store has as id the [Date.now()] of one of the requests served, a
    Number and never [null], and as name the [name] property of the parsed
    body of one of them: [undefined] or any JSON value.  It is a string as
    soon as every name the requests carry is one. *)
Theorem stored_items_come_from_requests requests item :
  In item (serve url_parse Buffer_toString JSON_parse htmlContent requests []) ->
  (exists clock request,
      In (clock, request) requests /\ id item = Date_now clock) /\
  (exists clock request,
      In (clock, request) requests
      /\ carries Buffer_toString JSON_parse request (name item)) /\
  ((forall clock request v,
       In (clock, request) requests ->
       carries Buffer_toString JSON_parse request v ->
       is_string v = true) ->
   is_string (name item) = true).
Proof.
  intro H. apply serve_item_origin in H as [(old & [] & _) | [Hid Hname]].
  destruct Hid as [(old & [] & _) | Hid].
  repeat split; trivial.
  intro Hall. destruct Hname as (c & r & Hin & Hc). exact (Hall c r _ Hin Hc).
Qed.

End TableFacts.

(** ** The calculator *)

Section CalculatorFacts.

Import Calculator.

Variable remainder : float -> float -> float.
Variable Math_pow : float -> float -> float.

(** C10.  [Calculate] with ["div"]: when the second operand is [===] 0 (it
    is one of the two zeros) the result is the message
    "Error: Division by zero!", and it is that whatever the division
    would give, so the division plays no part in it; for any other second
    operand the result is the quotient [num1 / num2]. *)
Theorem div_checks_zero_first (num1 num2 : float) :
  (strict_eq num2 0 = true <-> num2 = zero \/ num2 = neg_zero) /\
  (strict_eq num2 0 = true ->
   Calculate remainder Math_pow num1 num2 "div"
   = Msg "Error: Division by zero!" /\
   forall divide,
     Calculate_with remainder Math_pow divide num1 num2 "div"
     = Msg "Error: Division by zero!") /\
  (strict_eq num2 0 = false ->
   Calculate remainder Math_pow num1 num2 "div" = Num (num1 / num2)).
Proof.
  split; [apply strict_eq_zero|].
  unfold Calculate, Calculate_with. cbn [String.eqb Ascii.eqb Bool.eqb].
  split; intros ->; [split|]; reflexivity.
Qed.

End CalculatorFacts.


(** ** The statements above at concrete requests *)

Section Examples.

Import Crud.

Local Abbreviation doc := Sample.htmlContent.

(** POST /items with the body [{oo] then [ps]: refused, store kept. *)
Lemma post_unparsable_body_rejected_witness :
  Sample.JSON_parse (read_body Sample.Buffer_toString (Sample.request "POST" "/items" ["{oo"; "ps"]))
  = None /\
  exists response items',
    Sample.listener 1756000000000
      (Sample.request "POST" "/items" ["{oo"; "ps"]) Sample.store
    = (Some response, items') /\
    statusCode response = 400%Z /\
    payload response = JsonMessage "Invalid request" /\
    items' = Sample.store /\
    List.length items' = List.length Sample.store.
Proof.
  split; [reflexivity|].
  apply (post_unparsable_body_rejected Sample.url_parse
           Sample.Buffer_toString Sample.JSON_parse doc
           1756000000000 (Sample.request "POST" "/items" ["{oo"; "ps"])
           Sample.store); reflexivity.
Defined.

(** DELETE /items/abc: [parseInt] gives NaN and nothing is removed. *)
Lemma delete_nan_id_keeps_store_witness :
  path_id (Sample.pathname "/items/abc?x=1") = nan /\
  Sample.listener 9 (Sample.request "DELETE" "/items/abc?x=1" []) Sample.store
  = (Some (json_response 200 (JsonMessage "Item deleted")), Sample.store).
Proof.
  split; [reflexivity|].
  apply (delete_nan_id_keeps_store Sample.url_parse Sample.Buffer_toString
           Sample.JSON_parse doc 9
           (Sample.request "DELETE" "/items/abc?x=1" [])
           (Sample.pathname "/items/abc?x=1") Sample.store);
    reflexivity.
Defined.

(** DELETE /items/5 on a store with two items of id 5: both go. *)
Lemma delete_removes_all_matching_witness :
  snd (Sample.listener 9 (Sample.request "DELETE" "/items/5" []) Sample.store)
  = [Sample.item 7 "a"] /\
  exists items',
    Sample.listener 9 (Sample.request "DELETE" "/items/5" []) Sample.store
    = (Some (json_response 200 (JsonMessage "Item deleted")), items') /\
    (forall item, In item items' <->
                  In item Sample.store /\ strict_eq (id item) 5 = false) /\
    Subsequence items' Sample.store /\
    (List.length items'
     + List.length (filter (fun item => strict_eq (id item) 5) Sample.store)
     = List.length Sample.store)%nat.
Proof.
  split; [reflexivity|].
  apply (delete_removes_all_matching Sample.url_parse
           Sample.Buffer_toString Sample.JSON_parse doc 9
           (Sample.request "DELETE" "/items/5" []) "/items/5" Sample.store);
    reflexivity.
Defined.

(** PUT /items/5 with the name Y: the first of the two items of id 5 is
    renamed, the second is not. *)
Lemma put_writes_one_name_witness :
  Sample.listener 9 (Sample.request "PUT" "/items/5" [Sample.name_body "Y"])
    Sample.store
  = (Some (json_response 200 (JsonMessage "Item updated")),
     [Sample.item 7 "a"; Sample.item 5 "Y"; Sample.item 5 "c"]) /\
  exists before item after nm,
    Sample.store = (before ++ item :: after)%list /\
    (forall other, In other before -> strict_eq (id other) 5 = false) /\
    strict_eq (id item) 5 = true /\
    [Sample.item 7 "a"; Sample.item 5 "Y"; Sample.item 5 "c"]
    = (before ++ {| id := id item; name := nm |} :: after)%list /\
    map id [Sample.item 7 "a"; Sample.item 5 "Y"; Sample.item 5 "c"]
    = map id Sample.store /\
    List.length [Sample.item 7 "a"; Sample.item 5 "Y"; Sample.item 5 "c"]
    = List.length Sample.store.
Proof.
  split; [reflexivity|].
  apply (put_writes_one_name Sample.url_parse Sample.Buffer_toString
           Sample.JSON_parse doc 9
           (Sample.request "PUT" "/items/5" [Sample.name_body "Y"]) "/items/5"
           Sample.store (json_response 200 (JsonMessage "Item updated")));
    reflexivity.
Defined.

(** POST /items with the name X at the clock reading 1756000000000, and
    the GET /items that follows. *)
Lemma post_appends_one_item_witness :
  Sample.JSON_parse
    (read_body Sample.Buffer_toString
       (Sample.request "POST" "/items" [Sample.name_body "X"]))
  = Some (JObject [("name", JString "X")]) /\
  Sample.listener 1756000000000
    (Sample.request "POST" "/items" [Sample.name_body "X"]) [Sample.item 7 "a"]
  = (Some (json_response 201 (JsonMessage "Item added")),
     [Sample.item 7 "a"; Sample.item 1756000000000 "X"]) /\
  integer_value (id (Sample.item 1756000000000 "X")) = Some 1756000000000%Z /\
  Sample.listener 1756000000001 (Sample.request "GET" "/items?all" [])
    [Sample.item 7 "a"; Sample.item 1756000000000 "X"]
  = (Some (json_response 200
             (JsonItems [Sample.item 7 "a"; Sample.item 1756000000000 "X"])),
     [Sample.item 7 "a"; Sample.item 1756000000000 "X"]) /\
  content (JsonItems [Sample.item 7 "a"; Sample.item 1756000000000 "X"])
  = Some (JArray
            [JObject [("id", JNumber 7); ("name", JString "a")];
             JObject [("id", JNumber 1756000000000); ("name", JString "X")]]) /\
  Sample.listener 1756000000000 (Sample.request "POST" "/items" ["null"])
    [Sample.item 7 "a"]
  = (Some (json_response 400 (JsonMessage "Invalid request")),
     [Sample.item 7 "a"]).
Proof.
  destruct (post_appends_one_item Sample.url_parse Sample.Buffer_toString
              Sample.JSON_parse doc 1756000000000
              (Sample.request "POST" "/items" [Sample.name_body "X"])
              [Sample.item 7 "a"] eq_refl eq_refl) as [Hcreated _].
  destruct (post_appends_one_item Sample.url_parse Sample.Buffer_toString
              Sample.JSON_parse doc 1756000000000
              (Sample.request "POST" "/items" ["null"])
              [Sample.item 7 "a"] eq_refl eq_refl) as [_ Hnull].
  destruct (Hcreated (JObject [("name", JString "X")]) eq_refl)
    as (nm & [= <-] & Hpost & Hid & Hget); [discriminate|].
  destruct (Hget 1756000000001%Z (Sample.request "GET" "/items?all" [])
              eq_refl eq_refl) as (Hlist & _ & _ & _).
  split; [reflexivity|]. split; [exact Hpost|].
  split; [apply Hid; lia|]. split; [exact Hlist|].
  split; [reflexivity|]. apply Hnull. reflexivity.
Defined.

(** C1 as stated fails twice over.  The body [null] parses as JSON, and
    POST /items answers it 400 and appends nothing.  And a posted name
    need not come back as it was sent: the name [1e999] is stored as an
    infinity, which the GET that follows writes [null]. *)
Lemma post_null_body_counterexample :
  Sample.JSON_parse
    (read_body Sample.Buffer_toString (Sample.request "POST" "/items" ["null"]))
  = Some JNull /\
  Sample.listener 1756000000000 (Sample.request "POST" "/items" ["null"]) []
  = (Some (json_response 400 (JsonMessage "Invalid request")), []) /\
  ~ (exists response newItem,
        Sample.listener 1756000000000
          (Sample.request "POST" "/items" ["null"]) []
        = (Some response, [newItem]) /\
        statusCode response = 201%Z) /\
  requestListener Sample.url_parse Sample.Buffer_toString
    Sample.JSON_parse_numbers doc 5
    (Sample.request "POST" "/items" [Sample.overflow_body]) []
  = (Some (json_response 201 (JsonMessage "Item added")),
     [{| id := Date_now 5; name := VJson (JNumber infinity) |}]) /\
  content (JsonItems [{| id := Date_now 5; name := VJson (JNumber infinity) |}])
  = Some (JArray [JObject [("id", JNumber 5); ("name", JNull)]]).
Proof.
  repeat split. intros (response & newItem & Hrun & _). discriminate Hrun.
Qed.

(** POST /items with the body [7] and with the body [null]. *)
Lemma post_status_by_body_witness :
  (Sample.listener 3 (Sample.request "POST" "/items" ["7"]) []
   = (Some (json_response 201 (JsonMessage "Item added")),
      [{| id := Date_now 3; name := VUndefined |}])) /\
  (Sample.listener 3 (Sample.request "POST" "/items" ["null"]) []
   = (Some (json_response 400 (JsonMessage "Invalid request")), [])).
Proof.
  destruct (post_status_by_body Sample.url_parse Sample.Buffer_toString
              Sample.JSON_parse doc 3
              (Sample.request "POST" "/items" ["7"]) [] eq_refl eq_refl)
    as (response & items' & Hrun & _ & Hcreated).
  destruct (post_status_by_body Sample.url_parse Sample.Buffer_toString
              Sample.JSON_parse doc 3
              (Sample.request "POST" "/items" ["null"]) [] eq_refl eq_refl)
    as (response0 & items0 & Hrun0 & _ & _).
  split; [|exact eq_refl].
  destruct (Hcreated (JNumber 7) eq_refl) as (nm & _ & -> & -> & ->);
    [discriminate | exact Hrun].
Defined.

(** PUT /items/5: with the name Y the first item of id 5 is renamed; on a
    store without that id the answer is 404; a body that does not parse
    is answered 400. *)
Lemma put_outcomes_witness :
  (exists before item after nm,
      get_name (JObject [("name", JString "Y")]) = Some nm /\
      Sample.store = (before ++ item :: after)%list /\
      (forall other, In other before -> strict_eq (id other) 5 = false) /\
      strict_eq (id item) 5 = true /\
      Sample.listener 9
        (Sample.request "PUT" "/items/5" [Sample.name_body "Y"]) Sample.store
      = (Some (json_response 200 (JsonMessage "Item updated")),
         (before ++ {| id := id item; name := nm |} :: after)%list)) /\
  Sample.listener 9 (Sample.request "PUT" "/items/5" [Sample.name_body "Y"])
    [Sample.item 7 "a"]
  = (Some (json_response 404 (JsonMessage "Item not found")),
     [Sample.item 7 "a"]) /\
  Sample.listener 9 (Sample.request "PUT" "/items/5" ["{oops"]) Sample.store
  = (Some (json_response 400 (JsonMessage "Invalid request")), Sample.store).
Proof.
  pose proof (put_outcomes Sample.url_parse Sample.Buffer_toString
                Sample.JSON_parse doc 9
                (Sample.request "PUT" "/items/5" [Sample.name_body "Y"])
                "/items/5" Sample.store eq_refl eq_refl eq_refl)
    as [Hfound _].
  pose proof (put_outcomes Sample.url_parse Sample.Buffer_toString
                Sample.JSON_parse doc 9
                (Sample.request "PUT" "/items/5" [Sample.name_body "Y"])
                "/items/5" [Sample.item 7 "a"] eq_refl eq_refl eq_refl)
    as [_ [Hmissing _]].
  pose proof (put_outcomes Sample.url_parse Sample.Buffer_toString
                Sample.JSON_parse doc 9
                (Sample.request "PUT" "/items/5" ["{oops"])
                "/items/5" Sample.store eq_refl eq_refl eq_refl)
    as [_ [_ [Hmalformed _]]].
  split; [|split].
  - apply (Hfound (JObject [("name", JString "Y")]) eq_refl);
      [discriminate|].
    exists (Sample.item 5 "b"). split; [right; left|]; reflexivity.
  - apply (Hmissing (JObject [("name", JString "Y")]) eq_refl).
    intros (item & [<- | []] & Hid). discriminate Hid.
  - apply Hmalformed. reflexivity.
Defined.

(** C2 as stated fails: the body [null] parses as JSON and an item has the
    id 5, yet PUT /items/5 answers 400 and renames nothing. *)
Lemma put_null_body_counterexample :
  Sample.JSON_parse (read_body Sample.Buffer_toString (Sample.request "PUT" "/items/5" ["null"]))
  = Some JNull /\
  existsb (fun item => strict_eq (id item) (path_id (Sample.pathname "/items/5")))
    Sample.store = true /\
  Sample.listener 9 (Sample.request "PUT" "/items/5" ["null"]) Sample.store
  = (Some (json_response 400 (JsonMessage "Invalid request")), Sample.store) /\
  ~ (exists response items',
        Sample.listener 9 (Sample.request "PUT" "/items/5" ["null"])
          Sample.store
        = (Some response, items') /\
        statusCode response = 200%Z).
Proof.
  repeat split. intros (response & items' & Hrun & Hcode).
  injection Hrun as <- _. discriminate Hcode.
Qed.

(** One POST with the name X: the item stored has the clock reading as id
    and the string X as name. *)
Lemma stored_items_come_from_requests_witness :
  serve Sample.url_parse Sample.Buffer_toString Sample.JSON_parse doc
    [(10%Z, Sample.request "POST" "/items" [Sample.name_body "X"])] []
  = [{| id := Date_now 10; name := VJson (JString "X") |}] /\
  (exists clock request,
      In (clock, request)
        [(10%Z, Sample.request "POST" "/items" [Sample.name_body "X"])] /\
      id {| id := Date_now 10; name := VJson (JString "X") |} = Date_now clock).
Proof.
  split; [reflexivity|].
  apply (stored_items_come_from_requests Sample.url_parse
           Sample.Buffer_toString Sample.JSON_parse doc
           [(10%Z, Sample.request "POST" "/items" [Sample.name_body "X"])]
           {| id := Date_now 10; name := VJson (JString "X") |}).
  left. reflexivity.
Defined.

(** C6 as stated fails: after POST /items with the body [{}] the store,
    reached from the empty one, holds an item whose name is [undefined],
    not a string. *)
Lemma stored_name_not_string_counterexample :
  serve Sample.url_parse Sample.Buffer_toString Sample.JSON_parse doc
    [(10%Z, Sample.request "POST" "/items" ["{}"])] []
  = [{| id := Date_now 10; name := VUndefined |}] /\
  reachable Sample.url_parse Sample.Buffer_toString Sample.JSON_parse doc
    [{| id := Date_now 10; name := VUndefined |}] /\
  forallb (fun item => is_string (name item))
    [{| id := Date_now 10; name := VUndefined |}] = false.
Proof.
  split; [reflexivity|]. split; [|reflexivity].
  exists [(10%Z, Sample.request "POST" "/items" ["{}"])]. reflexivity.
Qed.

(** [Calculate(1, 0, "div")], [Calculate(1, -0, "div")] and
    [Calculate(1, 4, "div")]. *)
Lemma div_checks_zero_first_witness :
  (forall remainder Math_pow,
      Calculator.Calculate remainder Math_pow 1 0 "div"
      = Calculator.Msg "Error: Division by zero!") /\
  (forall remainder Math_pow,
      Calculator.Calculate remainder Math_pow 1 (-0) "div"
      = Calculator.Msg "Error: Division by zero!") /\
  (forall remainder Math_pow divide,
      Calculator.Calculate_with remainder Math_pow divide 1 0 "div"
      = Calculator.Msg "Error: Division by zero!") /\
  (forall remainder Math_pow,
      Calculator.Calculate remainder Math_pow 1 4 "div" = Calculator.Num 0.25).
Proof.
  split; [|split; [|split]].
  - intros remainder Math_pow.
    apply (div_checks_zero_first remainder Math_pow 1 0). reflexivity.
  - intros remainder Math_pow.
    apply (div_checks_zero_first remainder Math_pow 1 (-0)). reflexivity.
  - intros remainder Math_pow.
    apply (div_checks_zero_first remainder Math_pow 1 0). reflexivity.
  - intros remainder Math_pow.
    apply (div_checks_zero_first remainder Math_pow 1 4). reflexivity.
Defined.



End Examples.


(** ** More on numbers, lists and paths *)

Section MoreNumberFacts.

(** Two binary64 values that compare equal are the two zeros or the same
    value. *)
Lemma SFeqb_true (x y : spec_float) :
  SFeqb x y = true ->
  (exists s s', x = S754_zero s /\ y = S754_zero s') \/ (x = y /\ x <> S754_nan).
Proof.
  unfold SFeqb.
  destruct x as [s | s | | s m e], y as [s' | s' | | s' m' e']; cbn;
    try discriminate;
    try (destruct s; discriminate); try (destruct s'; discriminate).
  - intros _. left. now exists s, s'.
  - destruct s, s'; try discriminate; intros _; right; split;
      solve [reflexivity | discriminate].
  - destruct s, s'; try discriminate;
      destruct (Z.compare_spec e e') as [-> | |]; try discriminate;
      rewrite Pos.compare_cont_spec; cbn;
      destruct (Pos.compare_spec m m') as [-> | |]; try discriminate;
      intros _; right; split; solve [reflexivity | discriminate].
Qed.

(** Numbers that are [===] compare alike with every number. *)
Lemma strict_eq_congr (a b : float) :
  strict_eq a b = true -> forall c, strict_eq a c = strict_eq b c.
Proof.
  unfold strict_eq. rewrite eqb_spec. intros H c. rewrite !eqb_spec.
  destruct (SFeqb_true _ _ H) as [(s & s' & -> & ->) | [-> _]]; [|reflexivity].
  unfold SFeqb. destruct (Prim2SF c); reflexivity.
Qed.

End MoreNumberFacts.

Section MoreStoreFacts.

Import Crud.

(** A rewrite of items that keeps what [p] looks at keeps what [find]
    finds. *)
Lemma find_index_update_at (p : Item -> bool) (f : Item -> Item) :
  (forall item, p (f item) = p item) ->
  forall items i, find_index p (update_at i f items) = find_index p items.
Proof.
  intro Hf. induction items as [|y items IH]; intros [|i]; cbn; trivial.
  - now rewrite Hf.
  - now rewrite IH.
Qed.

Lemma update_at_twice (f : Item -> Item) :
  (forall item, f (f item) = f item) ->
  forall items i, update_at i f (update_at i f items) = update_at i f items.
Proof.
  intro Hf. induction items as [|y items IH]; intros [|i]; cbn; trivial.
  - now rewrite Hf.
  - now rewrite IH.
Qed.

Lemma update_at_map_id (v : value) : forall items i,
  map id (update_at i (fun item => {| id := id item; name := v |}) items)
  = map id items.
Proof.
  induction items as [|y items IH]; intros [|i]; cbn; trivial.
  now rewrite IH.
Qed.

Lemma update_at_length (f : Item -> Item) : forall items i,
  List.length (update_at i f items) = List.length items.
Proof.
  induction items as [|y items IH]; intros [|i]; cbn; trivial.
  now rewrite IH.
Qed.

(** Away from the index written, the array holds what it held. *)
Lemma update_at_other (f : Item -> Item) : forall items i j,
  i <> j -> nth_error (update_at i f items) j = nth_error items j.
Proof.
  induction items as [|y items IH]; intros [|i] [|j] H; cbn; trivial.
  - congruence.
  - apply IH. congruence.
Qed.

(** What [find] returns is the least index whose item satisfies [p]. *)
Lemma find_index_least (p : Item -> bool) : forall items i,
  find_index p items = Some i ->
  (exists item, nth_error items i = Some item /\ p item = true) /\
  (forall j item, nth_error items j = Some item -> p item = true -> (i <= j)%nat).
Proof.
  induction items as [|y items IH]; cbn; intro i; [discriminate|].
  destruct (p y) eqn:Hy.
  - intros [= <-]. split; [exists y; auto | intros; lia].
  - destruct (find_index p items) as [k|]; cbn; [|discriminate].
    intros [= <-]. destruct (IH k eq_refl) as [Hk Hleast]. split; [exact Hk|].
    intros [|j] item; cbn.
    + intros [= <-] Hp. congruence.
    + intros Hj Hp. specialize (Hleast j item Hj Hp). lia.
Qed.

Lemma filter_filter_swap {A : Type} (p q : A -> bool) (l : list A) :
  filter p (filter q l) = filter q (filter p l).
Proof.
  induction l as [|x l IH]; cbn; [reflexivity|].
  destruct (p x) eqn:Hp, (q x) eqn:Hq; cbn; rewrite ?Hp, ?Hq, IH; reflexivity.
Qed.

Lemma filter_filter_same {A : Type} (p : A -> bool) (l : list A) :
  filter p (filter p l) = filter p l.
Proof.
  induction l as [|x l IH]; cbn; [reflexivity|].
  destruct (p x) eqn:Hp; cbn; rewrite ?Hp, IH; reflexivity.
Qed.

End MoreStoreFacts.

(** ** The listener: what requests leave alone, and how they compose *)

Section MoreListenerFacts.

Import Crud.

Variable url_parse : string -> option UrlObject.
Variable Buffer_toString : string -> string.
Variable JSON_parse : string -> option json.
Variable htmlContent : string.

Local Abbreviation listener :=
  (requestListener url_parse Buffer_toString JSON_parse htmlContent).
Local Abbreviation has_pathname := (Crud.has_pathname url_parse).
Local Abbreviation read_body := (Crud.read_body Buffer_toString).
Local Abbreviation parsed := (listener_parsed url_parse Buffer_toString
                               JSON_parse htmlContent).
Local Abbreviation throws := (listener_throws url_parse Buffer_toString
                               JSON_parse htmlContent).
Local Abbreviation to_put := (listener_put url_parse Buffer_toString
                               JSON_parse htmlContent).
Local Abbreviation to_delete := (listener_delete url_parse Buffer_toString
                                  JSON_parse htmlContent).
Local Abbreviation to_post := (listener_post url_parse Buffer_toString
                                JSON_parse htmlContent).

Ltac run_step :=
  unfold post_on_end, put_on_end, try_catch, bind, lift, ret, get_items,
    items_push, items_filter, items_find, set_name.

(** The tests of the listener on a pathname [p], then the tests of the two
    [end] callbacks. *)
Ltac by_tests request p items :=
  destruct (p =? "/") eqn:Hroot;
  [|destruct ((p =? "/items") && (method request =? "GET")) eqn:Hlist;
    [|destruct ((p =? "/items") && (method request =? "POST")) eqn:Hpost;
      [|destruct (startsWith p "/items/" && (method request =? "PUT")) eqn:Hput;
        [|destruct (startsWith p "/items/"
                    && (method request =? "DELETE")) eqn:Hdelete]]]];
  run_step;
  try (destruct (JSON_parse (read_body request)) as [parsedBody|] eqn:Hbody);
  try (destruct (find_index _ items) as [found|] eqn:Hfind);
  try (match goal with
       | |- context [get_name ?b] => destruct (get_name b) as [nm|] eqn:Hname
       end).

(** Every way through the listener: [url.parse] throws, the pathname is
    [null], or the tests are made on a string. *)
Ltac by_route clock request items :=
  let p := fresh "p" in
  destruct (url_parse (url request)) as [[[p|]]|] eqn:Hparse;
  [ rewrite (parsed clock request p items Hparse); by_tests request p items
  | rewrite (throws clock request items) by auto
  | rewrite (throws clock request items) by auto ].

(** X1.  A request whose method is none of POST, PUT and DELETE leaves the
    store as it was, whatever its path and body. *)
Theorem other_methods_keep_store clock request items :
  method request <> "POST" -> method request <> "PUT" ->
  method request <> "DELETE" ->
  snd (listener clock request items) = items.
Proof.
  intros HPOST HPUT HDELETE.
  apply String.eqb_neq in HPOST, HPUT, HDELETE.
  destruct (url_parse (url request)) as [[[p|]]|] eqn:Hparse;
    [ | now rewrite throws by auto | now rewrite throws by auto ].
  rewrite (parsed _ _ _ _ Hparse), HPOST, HPUT, HDELETE, !andb_false_r.
  destruct (_ =? "/"); [reflexivity|]. destruct (_ && _); reflexivity.
Qed.

(** X2.  A request answered 400 or 404 has changed nothing. *)
Theorem refused_request_keeps_store clock request items response items' :
  listener clock request items = (Some response, items') ->
  statusCode response = 400%Z \/ statusCode response = 404%Z ->
  items' = items.
Proof.
  by_route clock request items; intros [= <- <-]; cbn; trivial;
    intros [H | H]; discriminate H.
Qed.


(** X4.  PUT is idempotent: the same PUT once more gets the same response and
    leaves the store as the first left it. *)
Theorem put_twice_is_put_once clock clock' request p items :
  has_pathname request p ->
  startsWith p "/items/" = true ->
  method request = "PUT" ->
  listener clock' request (snd (listener clock request items))
  = listener clock request items.
Proof.
  intros Hp Hs Hm. rewrite !(to_put _ _ _ _ Hp Hs Hm). run_step.
  destruct (JSON_parse (read_body request)) as [parsedBody|]; [|reflexivity].
  destruct (find_index _ items) as [found|] eqn:Hfind.
  - destruct (get_name parsedBody) as [nm|]; cbn [snd].
    + rewrite find_index_update_at by reflexivity. rewrite Hfind.
      rewrite update_at_twice by reflexivity. reflexivity.
    + rewrite Hfind. reflexivity.
  - cbn [snd]. rewrite Hfind. reflexivity.
Qed.

(** X5.  DELETE is idempotent: the same DELETE once more gets the same
    response and leaves the store as the first left it. *)
Theorem delete_twice_is_delete_once clock clock' request p items :
  has_pathname request p ->
  startsWith p "/items/" = true ->
  method request = "DELETE" ->
  listener clock' request (snd (listener clock request items))
  = listener clock request items.
Proof.
  intros Hp Hs Hm. rewrite !(to_delete _ _ _ _ Hp Hs Hm). cbn [snd].
  now rewrite filter_filter_same.
Qed.

(** X6.  Two DELETEs leave the same store in either order. *)
Theorem deletes_commute clock1 clock2 request1 request2 p1 p2 items :
  has_pathname request1 p1 ->
  startsWith p1 "/items/" = true ->
  method request1 = "DELETE" ->
  has_pathname request2 p2 ->
  startsWith p2 "/items/" = true ->
  method request2 = "DELETE" ->
  snd (listener clock2 request2 (snd (listener clock1 request1 items)))
  = snd (listener clock1 request1 (snd (listener clock2 request2 items))).
Proof.
  intros Hp1 Hs1 Hm1 Hp2 Hs2 Hm2.
  rewrite !(to_delete _ _ _ _ Hp1 Hs1 Hm1), !(to_delete _ _ _ _ Hp2 Hs2 Hm2).
  cbn [snd]. apply filter_filter_swap.
Qed.

(** X7.  Once DELETE has removed an id, a PUT for the same id finds nothing:
    with a body that parses it is answered 404, and the store stays as the
    DELETE left it. *)
Theorem put_after_delete_finds_nothing clock1 clock2 deletion update p1 p2
  items parsedBody :
  has_pathname deletion p1 ->
  startsWith p1 "/items/" = true ->
  method deletion = "DELETE" ->
  has_pathname update p2 ->
  startsWith p2 "/items/" = true ->
  method update = "PUT" ->
  path_id p2 = path_id p1 ->
  JSON_parse (read_body update) = Some parsedBody ->
  listener clock2 update (snd (listener clock1 deletion items))
  = (Some (json_response 404 (JsonMessage "Item not found")),
     snd (listener clock1 deletion items)).
Proof.
  intros Hp1 Hs1 Hm1 Hp2 Hs2 Hm2 Hid Hbody.
  rewrite (to_delete _ _ _ _ Hp1 Hs1 Hm1), (to_put _ _ _ _ Hp2 Hs2 Hm2).
  cbn [snd]. run_step.
  rewrite Hbody, Hid.
  replace (find_index _ (filter _ items)) with (@None nat); [reflexivity|].
  symmetry. apply find_index_none. intros item Hitem.
  apply filter_In in Hitem as [_ Hitem]. unfold strict_neq in Hitem.
  now apply negb_true_iff in Hitem.
Qed.

(** X8.  POST then DELETE of the id just given: when no earlier item has that
    id, the store is back to what it was before the POST. *)
Theorem delete_undoes_post clock clock' creation deletion p items parsedBody :
  has_pathname creation "/items" -> method creation = "POST" ->
  JSON_parse (read_body creation) = Some parsedBody -> parsedBody <> JNull ->
  has_pathname deletion p ->
  startsWith p "/items/" = true ->
  method deletion = "DELETE" ->
  strict_eq (Date_now clock) (path_id p) = true ->
  (forall item, In item items -> strict_eq (id item) (path_id p) = false) ->
  snd (listener clock' deletion (snd (listener clock creation items))) = items.
Proof.
  intros Hp Hm Hbody Hnull Hp' Hs' Hm' Hnew Hold.
  rewrite (to_delete _ _ _ _ Hp' Hs' Hm'), (to_post _ _ _ Hp Hm).
  run_step. rewrite Hbody.
  destruct (get_name parsedBody) as [nm|] eqn:Hname;
    [|destruct parsedBody; cbn in Hname; congruence].
  cbn [snd]. rewrite filter_app. cbn. unfold strict_neq at 2. rewrite Hnew.
  cbn. rewrite app_nil_r. apply filter_keeps_all.
  intros item Hitem. unfold strict_neq. now rewrite (Hold item Hitem).
Qed.

(** X9.  PUT never adds, removes or moves an item and never changes an id,
    whatever it answers. *)
Theorem put_keeps_ids clock request p items :
  has_pathname request p ->
  startsWith p "/items/" = true ->
  method request = "PUT" ->
  map id (snd (listener clock request items)) = map id items.
Proof.
  intros Hp Hs Hm. rewrite (to_put _ _ _ _ Hp Hs Hm). run_step.
  destruct (JSON_parse (read_body request)) as [parsedBody|]; [|reflexivity].
  destruct (find_index _ items); [|reflexivity].
  destruct (get_name parsedBody); [|reflexivity].
  cbn [snd]. apply update_at_map_id.
Qed.

(** X10.  An item that stands behind another whose id is [===] its own is out
    of reach of PUT: whatever the request, it keeps its name. *)
Theorem put_skips_shadowed_item clock request p items i j first second :
  has_pathname request p ->
  startsWith p "/items/" = true ->
  method request = "PUT" ->
  nth_error items i = Some first -> nth_error items j = Some second ->
  (i < j)%nat -> strict_eq (id first) (id second) = true ->
  nth_error (snd (listener clock request items)) j = Some second.
Proof.
  intros Hp Hs Hm Hi Hj Hlt Hsame. rewrite (to_put _ _ _ _ Hp Hs Hm).
  run_step.
  destruct (JSON_parse (read_body request)) as [parsedBody|]; [|exact Hj].
  destruct (find_index _ items) as [found|] eqn:Hfind; [|exact Hj].
  destruct (get_name parsedBody); [|exact Hj].
  cbn [snd]. rewrite update_at_other; [exact Hj|].
  intros ->. destruct (find_index_least _ _ _ Hfind) as [(item & Hitem & Hp0) Hleast].
  rewrite Hj in Hitem. injection Hitem as <-.
  assert (Hfirst : strict_eq (id first) (path_id p) = true)
    by (rewrite (strict_eq_congr _ _ Hsame); exact Hp0).
  specialize (Hleast i first Hi Hfirst). lia.
Qed.

(** A request adds at most one item, and only a POST on the collection
    adds one. *)
Lemma listener_length clock request items :
  (List.length (snd (listener clock request items))
   <= List.length items
      + (if Traffic.is_post url_parse request then 1 else 0))%nat.
Proof.
  unfold Traffic.is_post.
  destruct (url_parse (url request)) as [[[p|]]|] eqn:Hparse;
    [ | rewrite throws by auto; cbn; lia | rewrite throws by auto; cbn; lia ].
  pose proof (filter_length_le
                (fun item => strict_neq (id item) (path_id p)) items) as Hfilter.
  rewrite (parsed _ _ _ _ Hparse). cbn [pathname same_string].
  by_tests request p items; cbn [snd];
    rewrite ?length_app, ?update_at_length; cbn;
    try (destruct (_ && _)); lia.
Qed.

(** X11.  The store never holds more items than it held at start plus the
    POSTs on the collection served since. *)
Theorem store_length_bound requests : forall items,
  (List.length (serve url_parse Buffer_toString JSON_parse htmlContent
                  requests items)
   <= List.length items + Traffic.posts url_parse requests)%nat.
Proof.
  induction requests as [|[clock request] later IH]; intro items;
    cbn [serve Traffic.posts].
  - lia.
  - pose proof (listener_length clock request items) as Hstep.
    destruct (listener clock request items) as [[response|] items'];
      cbn [snd] in Hstep; [specialize (IH items')|];
      destruct (Traffic.is_post url_parse request); lia.
Qed.

(** X12.  PUT on a path whose id [parseInt] turns into NaN: nothing is renamed
    and the answer is never 200.  It is 404 "Item not found" when the body
    parses and 400 "Invalid request" when it does not, with the store as
    it was. *)
Theorem put_nan_id_finds_nothing clock request p items :
  has_pathname request p ->
  startsWith p "/items/" = true ->
  method request = "PUT" ->
  path_id p = nan ->
  listener clock request items
  = (Some (match JSON_parse (read_body request) with
           | Some _ => json_response 404 (JsonMessage "Item not found")
           | None => json_response 400 (JsonMessage "Invalid request")
           end), items) /\
  forall response,
    fst (listener clock request items) = Some response ->
    statusCode response <> 200%Z.
Proof.
  intros Hp Hs Hm Hnan. rewrite (to_put _ _ _ _ Hp Hs Hm), Hnan. run_step.
  replace (find_index _ items) with (@None nat)
    by (symmetry; apply find_index_none; intros; apply strict_eq_nan).
  destruct (JSON_parse (read_body request)) as [parsedBody|]; cbn;
    (split; [reflexivity|]); intros response [= <-]; discriminate.
Qed.

End MoreListenerFacts.

(** ** Paths and [parseInt] *)

Section PathFacts.

Import Crud.

Lemma split_not_empty (sep : ascii) (s : string) : split sep s <> [].
Proof.
  destruct s as [|c s]; cbn; [discriminate|].
  destruct (Ascii.eqb c sep); [discriminate|].
  destruct (split sep s); discriminate.
Qed.

(** [split] cuts at the first separator. *)
Lemma split_at_first (sep : ascii) (a b : string) :
  ~ In sep (list_ascii_of_string a) ->
  split sep (a ++ String sep b) = a :: split sep b.
Proof.
  induction a as [|c a IH]; cbn; intro H.
  - now rewrite Ascii.eqb_refl.
  - destruct (Ascii.eqb_spec c sep) as [->|_]; [tauto|].
    rewrite IH by tauto. reflexivity.
Qed.

Lemma split_without_separator (sep : ascii) (a : string) :
  ~ In sep (list_ascii_of_string a) -> split sep a = [a].
Proof.
  induction a as [|c a IH]; cbn; intro H; [reflexivity|].
  destruct (Ascii.eqb_spec c sep) as [->|_]; [tauto|].
  rewrite IH by tauto. reflexivity.
Qed.

Lemma path_id_segment (segment : string) :
  ~ In "/"%char (list_ascii_of_string segment) ->
  path_id ("/items/" ++ segment) = parseInt segment /\
  forall rest, path_id ("/items/" ++ segment ++ String "/" rest) = parseInt segment.
Proof.
  intro H. unfold path_id. split; [|intro rest].
  - change ("/items/" ++ segment)
      with ("" ++ String "/" ("items" ++ String "/" segment)).
    rewrite !split_at_first, split_without_separator; trivial;
      cbn; intuition discriminate.
  - change ("/items/" ++ segment ++ String "/" rest)
      with ("" ++ String "/" ("items" ++ String "/" (segment ++ String "/" rest))).
    rewrite !split_at_first; trivial; cbn; intuition discriminate.
Qed.

(** X13.  The id of a path under [/items/] is read from the segment after
    [/items/] and from nothing else: what follows a further [/] plays no
    part. *)
Theorem path_id_reads_third_segment (segment : string) :
  ~ In "/"%char (list_ascii_of_string segment) ->
  path_id ("/items/" ++ segment) = parseInt segment /\
  forall rest, path_id ("/items/" ++ segment ++ String "/" rest) = parseInt segment.
Proof. exact (path_id_segment segment). Qed.

Lemma leading_digits_stop (d : string) (c : ascii) (t : string) :
  Forall (fun x => digit_value x <> None) (list_ascii_of_string d) ->
  digit_value c = None ->
  leading_digits (d ++ String c t) = leading_digits d.
Proof.
  intros Hd Hc. induction d as [|x d IH]; cbn.
  - now rewrite Hc.
  - inversion Hd as [|? ? Hx Hrest]; subst.
    destruct (digit_value x); [|congruence]. now rewrite IH.
Qed.

(** A string that starts with a digit has no white space to skip and no
    sign. *)
Lemma parseInt_digit_first (c : ascii) (s : string) :
  digit_value c <> None ->
  parseInt (String c s)
  = match leading_digits (String c s) with
    | [] => nan
    | ds => number_of_Z false (decimal_value ds)
    end.
Proof.
  destruct c as [[|] [|] [|] [|] [|] [|] [|] [|]]; intro H;
    solve [ exfalso; apply H; reflexivity | reflexivity ].
Qed.

(** [parseInt] reads the digits a string starts with and stops at the first
    other character: what follows it plays no part. *)
Lemma parseInt_ignores_tail (d : string) (c : ascii) (t : string) :
  d <> "" ->
  Forall (fun x => digit_value x <> None) (list_ascii_of_string d) ->
  digit_value c = None ->
  parseInt (d ++ String c t) = parseInt d.
Proof.
  intros Hne Hd Hc. destruct d as [|x d]; [congruence|].
  assert (Hx : digit_value x <> None) by (now inversion Hd).
  change (String x d ++ String c t) with (String x (d ++ String c t)).
  rewrite !(parseInt_digit_first x) by exact Hx.
  change (String x (d ++ String c t)) with (String x d ++ String c t).
  now rewrite leading_digits_stop.
Qed.

Lemma split_after_prefix (sep : ascii) (a s : string) :
  ~ In sep (list_ascii_of_string a) ->
  exists u parts,
    split sep s = u :: parts /\ split sep (a ++ s) = (a ++ u) :: parts.
Proof.
  intro H. destruct (split sep s) as [|u parts] eqn:Hs;
    [now apply split_not_empty in Hs|].
  exists u, parts. split; [reflexivity|].
  induction a as [|x a IH]; cbn; [exact Hs|].
  cbn in H. destruct (Ascii.eqb_spec x sep) as [->|_]; [tauto|].
  rewrite IH by tauto. reflexivity.
Qed.

(** X14.  A path under [/items/] whose segment starts with digits addresses the
    item those digits name: the first other character ends the id, and
    what follows it plays no part. *)
Theorem path_id_reads_leading_digits (d : string) (c : ascii) (t : string) :
  d <> "" ->
  Forall (fun x => digit_value x <> None) (list_ascii_of_string d) ->
  digit_value c = None ->
  path_id ("/items/" ++ d ++ String c t) = path_id ("/items/" ++ d).
Proof.
  intros Hne Hd Hc.
  assert (Hslash : ~ In "/"%char (list_ascii_of_string d)).
  { intro Hin. rewrite Forall_forall in Hd. now apply (Hd _ Hin). }
  rewrite (proj1 (path_id_segment d Hslash)).
  destruct (Ascii.eqb_spec c "/") as [->|Hsep].
  - apply (proj2 (path_id_segment d Hslash)).
  - destruct (split_after_prefix "/" d (String c t) Hslash)
      as (u & parts & Hu & Hsplit).
    assert (Hhead : exists u', u = String c u').
    { cbn in Hu. destruct (Ascii.eqb_spec c "/") as [|_]; [contradiction|].
      destruct (split "/" t) as [|part rest]; injection Hu as <- _; eauto. }
    destruct Hhead as [u' ->]. unfold path_id.
    change ("/items/" ++ d ++ String c t)
      with ("" ++ String "/" ("items" ++ String "/" (d ++ String c t))).
    rewrite !split_at_first, Hsplit by (cbn; intuition discriminate).
    cbn [index_to_string nth_error].
    now apply parseInt_ignores_tail.
Qed.

End PathFacts.


(** ** The calculator: its messages, its earlier version, its command line *)

Section MoreCalculatorFacts.

Import Calculator.

Variable Number_of_string : string -> float.
Variable remainder : float -> float -> float.
Variable Math_pow : float -> float -> float.

Local Abbreviation operators :=
  ["add"; "sub"; "div"; "mul"; "rem"; "pow"; "sqrt"].

(** X16.  [Calculate] returns a message in three cases and no other: a division
    by a zero, the square root of a number below zero, an operator it does
    not know.  Everything else is a number. *)
Theorem calculate_messages (num1 num2 : float) (operation message : string) :
  Calculate remainder Math_pow num1 num2 operation = Msg message <->
  (operation = "div" /\ strict_eq num2 0 = true
   /\ message = "Error: Division by zero!")
  \/ (operation = "sqrt" /\ (num1 <? 0)%float = true
      /\ message = "Error: Cannot compute the square root of a negative number!")
  \/ (~ In operation operators /\ message = "Invalid operator").
Proof.
  unfold Calculate, Calculate_with.
  destruct (String.eqb_spec operation "add") as [->|Hadd];
    [split; [discriminate | cbn; intuition discriminate]|].
  destruct (String.eqb_spec operation "sub") as [->|Hsub];
    [split; [discriminate | cbn; intuition discriminate]|].
  destruct (String.eqb_spec operation "div") as [->|Hdiv].
  { destruct (strict_eq num2 0); split.
    - intros [= <-]. left. auto.
    - intros [(_ & _ & ->) | [(H & _) | (H & _)]];
        [reflexivity | discriminate H | cbn in H; tauto].
    - discriminate.
    - intros [(_ & H & _) | [(H & _) | (H & _)]];
        [discriminate H | discriminate H | cbn in H; tauto]. }
  destruct (String.eqb_spec operation "mul") as [->|Hmul];
    [split; [discriminate | cbn; intuition discriminate]|].
  destruct (String.eqb_spec operation "rem") as [->|Hrem];
    [split; [discriminate | cbn; intuition discriminate]|].
  destruct (String.eqb_spec operation "pow") as [->|Hpow];
    [split; [discriminate | cbn; intuition discriminate]|].
  destruct (String.eqb_spec operation "sqrt") as [->|Hsqrt].
  { destruct (num1 <? 0)%float; split.
    - intros [= <-]. right. left. auto.
    - intros [(H & _) | [(_ & _ & ->) | (H & _)]];
        [discriminate H | reflexivity | cbn in H; tauto].
    - discriminate.
    - intros [(H & _) | [(_ & H & _) | (H & _)]];
        [discriminate H | discriminate H | cbn in H; tauto]. }
  split.
  - intros [= <-]. right. right. split; [|reflexivity].
    cbn. intuition congruence.
  - intros [(H & _) | [(H & _) | (_ & ->)]]; congruence.
Qed.

(** X17.  The final [Calculate] answers as the earlier one did, the two new
    operators and the division by a zero apart. *)
Theorem final_agrees_with_basic (num1 num2 : float) (operation : string) :
  operation <> "pow" -> operation <> "sqrt" ->
  (operation = "div" -> strict_eq num2 0 = false) ->
  Calculate remainder Math_pow num1 num2 operation
  = Basic.Calculate remainder num1 num2 operation.
Proof.
  intros Hpow Hsqrt Hdiv. unfold Calculate, Calculate_with, Basic.Calculate.
  apply String.eqb_neq in Hpow, Hsqrt. rewrite Hpow, Hsqrt.
  destruct (operation =? "add"); [reflexivity|].
  destruct (operation =? "sub"); [reflexivity|].
  destruct (String.eqb_spec operation "div") as [H|_]; [|reflexivity].
  now rewrite (Hdiv H).
Qed.

(** X18.  Dividing by a zero, the earlier [Calculate] returns an infinity or NaN
    as if it were a result; the final one returns its message. *)
Theorem basic_divides_by_zero (num1 num2 : float) :
  strict_eq num2 0 = true ->
  (exists q, Basic.Calculate remainder num1 num2 "div" = Num q /\
             (q = nan \/ q = infinity \/ q = neg_infinity)) /\
  Calculate remainder Math_pow num1 num2 "div" = Msg "Error: Division by zero!".
Proof.
  intro Hzero. split.
  - exists (num1 / num2)%float. split; [reflexivity|].
    rewrite <- (SF2Prim_Prim2SF (num1 / num2)), div_spec.
    apply strict_eq_zero in Hzero.
    unfold SF64div.
    destruct Hzero as [-> | ->];
      [change (Prim2SF zero) with (S754_zero false)
      |change (Prim2SF neg_zero) with (S754_zero true)];
      destruct (Prim2SF num1) as [s | s | | s m e]; try destruct s; cbn; auto.
  - unfold Calculate, Calculate_with. cbn [String.eqb Ascii.eqb Bool.eqb].
    now rewrite Hzero.
Qed.

(** X19.  The command line with fewer than two arguments after the script, or
    with two and no operator when the second is not a number: the one line
    printed is the request for valid numbers.  So a square root typed as
    a number and [sqrt] alone is refused. *)
Theorem main_asks_for_numbers (argv : list string) :
  ((List.length argv <= 3)%nat ->
   Cli.main Number_of_string remainder Math_pow argv
   = Msg "Error: Please provide valid numbers.") /\
  (nth_error argv 4 = None ->
   Cli.isNaN (Cli.Number Number_of_string (nth_error argv 3)) = true ->
   Cli.main Number_of_string remainder Math_pow argv
   = Msg "Error: Please provide valid numbers.").
Proof.
  assert (Hsecond : nth_error argv 4 = None ->
                    Cli.isNaN (Cli.Number Number_of_string (nth_error argv 3)) = true ->
                    Cli.main Number_of_string remainder Math_pow argv
                    = Msg "Error: Please provide valid numbers.").
  { intros Hop Hnan. unfold Cli.main. rewrite Hop, Hnan. cbn.
    now rewrite orb_true_r. }
  split; [|exact Hsecond].
  intro Hlen. apply Hsecond.
  - apply nth_error_None. lia.
  - replace (nth_error argv 3) with (@None string); [reflexivity|].
    symmetry. apply nth_error_None. lia.
Qed.

(** X20.  With [sqrt] as operator the second argument plays no part in what is
    printed, be it a number or not. *)
Theorem main_sqrt_ignores_second (node script first second second' : string)
  (rest : list string) :
  Cli.main Number_of_string remainder Math_pow
    (node :: script :: first :: second :: "sqrt" :: rest)
  = Cli.main Number_of_string remainder Math_pow
      (node :: script :: first :: second' :: "sqrt" :: rest).
Proof.
  unfold Cli.main. cbn [nth_error Cli.not_sqrt String.eqb Ascii.eqb Bool.eqb negb].
  rewrite !andb_false_r.
  destruct (Cli.isNaN _ || false); reflexivity.
Qed.

End MoreCalculatorFacts.

(** ** The page and the server together *)

Section UiFacts.

Import Crud.

Variable JSON_stringify_name : string -> string.
Variable Number_toString : float -> string.
Variable url_parse : string -> option UrlObject.
Variable Buffer_toString : string -> string.
Variable JSON_parse : string -> option json.
Variable htmlContent : string.

Local Abbreviation session :=
  (Ui.session JSON_stringify_name Number_toString url_parse Buffer_toString
     JSON_parse htmlContent).
Local Abbreviation reads_back :=
  (Ui.reads_back JSON_stringify_name Buffer_toString JSON_parse).

(** X21.  Submitting the form: a blank input sends nothing and the store stays;
    any other input, once its text is read back by the server, adds one
    item named by the input without the white space around it. *)
Theorem submit_stores_trimmed_name clock value items :
  url_parse "/items" = Some {| pathname := Some "/items" |} ->
  (Ui.trim value = "" ->
   Ui.requests_of JSON_stringify_name Number_toString (Ui.Submit value) = [] /\
   session [(clock, Ui.Submit value)] items = items) /\
  (Ui.trim value <> "" -> reads_back (Ui.trim value) ->
   session [(clock, Ui.Submit value)] items
   = (items ++ [{| id := Date_now clock;
                   name := VJson (JString (Ui.trim value)) |}])%list).
Proof.
  intro Hpath. unfold Ui.session, Ui.traffic. cbn [flat_map Ui.requests_of].
  unfold Ui.truthy. split.
  - intros ->. split; reflexivity.
  - intros Hne Hback. apply String.eqb_neq in Hne. rewrite Hne.
    cbn [negb map app serve].
    rewrite (listener_post url_parse Buffer_toString JSON_parse htmlContent
               clock (Ui.fetch "POST" "/items" _) items Hpath eq_refl).
    unfold post_on_end, try_catch, bind, lift, ret, items_push, read_body.
    cbn [chunks Ui.fetch fold_left String.append].
    unfold Ui.reads_back in Hback. rewrite Hback.
    cbn [get_name lookup fst snd serve].
    rewrite (listener_parsed url_parse Buffer_toString JSON_parse htmlContent
               clock Ui.fetchItems "/items" _ Hpath).
    reflexivity.
Qed.

(** What the requests of the page carry: a name comes only with a POST or
    a PUT, and is the name the action sent. *)
Lemma traffic_carries actions clock request v :
  JSON_parse "" = None ->
  (forall c a s, In (c, a) actions -> Ui.name_sent a = Some s -> reads_back s) ->
  In (clock, request)
    (Ui.traffic JSON_stringify_name Number_toString actions) ->
  carries Buffer_toString JSON_parse request v ->
  exists s, v = VJson (JString s) /\ s <> "".
Proof.
  intros Hempty Hback Hin (parsedBody & Hbody & Hname).
  unfold Ui.traffic in Hin. apply in_flat_map in Hin as ([c a] & Ha & Hin).
  apply in_map_iff in Hin as (r & [= -> ->] & Hr).
  assert (Hget : forall s, Ui.name_sent a = Some s -> s <> "" ->
                 read_body Buffer_toString request
                 = Buffer_toString (JSON_stringify_name s) ->
                 exists s, v = VJson (JString s) /\ s <> "").
  { intros s Hs Hne Hread. exists s. split; [|exact Hne].
    rewrite Hread in Hbody. rewrite (Hback _ _ _ Ha Hs) in Hbody.
    injection Hbody as <-. cbn in Hname. congruence. }
  assert (Hnone : read_body Buffer_toString request = "" ->
                  exists s, v = VJson (JString s) /\ s <> "")
    by (intro Hread; rewrite Hread, Hempty in Hbody; discriminate).
  destruct a as [value | item [newName|] | item |]; cbn in Hr.
  - unfold Ui.truthy in Hr. destruct (String.eqb_spec (Ui.trim value) "") as [|Hne];
      cbn in Hr; [tauto|].
    destruct Hr as [<- | [<- | []]]; [|now apply Hnone].
    apply (Hget (Ui.trim value)); trivial.
    cbn. unfold Ui.truthy. apply String.eqb_neq in Hne. now rewrite Hne.
  - unfold Ui.truthy in Hr. destruct (String.eqb_spec newName "") as [|Hne];
      cbn in Hr; [tauto|].
    destruct Hr as [<- | [<- | []]]; [|now apply Hnone].
    apply (Hget newName); trivial.
    cbn. unfold Ui.truthy. apply String.eqb_neq in Hne. now rewrite Hne.
  - tauto.
  - destruct Hr as [<- | [<- | []]]; now apply Hnone.
  - destruct Hr as [<- | []]. now apply Hnone.
Qed.

(** X22.  A store that only the page has written to, from the empty store:
    when the server reads back the names the page sent, every item is
    named by a string, and not by the empty one. *)
Theorem page_names_are_strings actions item :
  JSON_parse "" = None ->
  (forall c a s, In (c, a) actions -> Ui.name_sent a = Some s -> reads_back s) ->
  In item (session actions []) ->
  exists s, name item = VJson (JString s) /\ s <> "".
Proof.
  intros Hempty Hback Hitem. unfold Ui.session in Hitem.
  apply serve_item_origin in Hitem as [(old & [] & _) | [_ Hname]].
  destruct Hname as (clock & request & Hin & Hcarries).
  exact (traffic_carries actions clock request _ Hempty Hback Hin Hcarries).
Qed.

End UiFacts.

(** ** The further statements at concrete requests *)

Section MoreExamples.

Import Crud.

Local Abbreviation doc := Sample.htmlContent.
Local Abbreviation put5 :=
  (Sample.request "PUT" "/items/5" [Sample.name_body "Y"]).
Local Abbreviation delete5 := (Sample.request "DELETE" "/items/5" []).
Local Abbreviation delete7 := (Sample.request "DELETE" "/items/7?x" []).

(** HEAD on the collection. *)
Lemma other_methods_keep_store_witness :
  snd (Sample.listener 9 (Sample.request "HEAD" "/items" []) Sample.store)
  = Sample.store.
Proof.
  apply (other_methods_keep_store Sample.url_parse Sample.Buffer_toString Sample.JSON_parse doc 9
           (Sample.request "HEAD" "/items" []) Sample.store); discriminate.
Defined.

(** PUT /items/6 on a store without the id 6. *)
Lemma refused_request_keeps_store_witness :
  fst (Sample.listener 9
         (Sample.request "PUT" "/items/6" [Sample.name_body "Y"]) Sample.store)
  = Some (json_response 404 (JsonMessage "Item not found")) /\
  snd (Sample.listener 9
         (Sample.request "PUT" "/items/6" [Sample.name_body "Y"]) Sample.store)
  = Sample.store.
Proof.
  split; [reflexivity|].
  apply (refused_request_keeps_store Sample.url_parse Sample.Buffer_toString Sample.JSON_parse doc 9
           (Sample.request "PUT" "/items/6" [Sample.name_body "Y"])
           Sample.store (json_response 404 (JsonMessage "Item not found")));
    [reflexivity | right; reflexivity].
Defined.


Lemma put_twice_is_put_once_witness :
  Sample.listener 10 put5 (snd (Sample.listener 9 put5 Sample.store))
  = (Some (json_response 200 (JsonMessage "Item updated")),
     [Sample.item 7 "a"; Sample.item 5 "Y"; Sample.item 5 "c"]).
Proof.
  exact (eq_trans
           (put_twice_is_put_once Sample.url_parse Sample.Buffer_toString
              Sample.JSON_parse doc 9 10 put5 "/items/5" Sample.store
              eq_refl eq_refl eq_refl)
           eq_refl).
Defined.

Lemma delete_twice_is_delete_once_witness :
  Sample.listener 10 delete5 (snd (Sample.listener 9 delete5 Sample.store))
  = (Some (json_response 200 (JsonMessage "Item deleted")), [Sample.item 7 "a"]).
Proof.
  exact (eq_trans
           (delete_twice_is_delete_once Sample.url_parse
              Sample.Buffer_toString Sample.JSON_parse doc 9 10 delete5
              "/items/5" Sample.store eq_refl eq_refl eq_refl)
           eq_refl).
Defined.

Lemma deletes_commute_witness :
  snd (Sample.listener 10 delete7 (snd (Sample.listener 9 delete5 Sample.store)))
  = [] /\
  snd (Sample.listener 9 delete5 (snd (Sample.listener 10 delete7 Sample.store)))
  = [].
Proof.
  split; [reflexivity|].
  exact (eq_trans
           (eq_sym
              (deletes_commute Sample.url_parse Sample.Buffer_toString
                 Sample.JSON_parse doc 9 10 delete5 delete7 "/items/5"
                 "/items/7" Sample.store eq_refl eq_refl eq_refl eq_refl
                 eq_refl eq_refl))
           eq_refl).
Defined.

Lemma put_after_delete_finds_nothing_witness :
  Sample.listener 10 put5 (snd (Sample.listener 9 delete5 Sample.store))
  = (Some (json_response 404 (JsonMessage "Item not found")),
     snd (Sample.listener 9 delete5 Sample.store)).
Proof.
  apply (put_after_delete_finds_nothing Sample.url_parse
           Sample.Buffer_toString Sample.JSON_parse doc 9 10 delete5 put5
           "/items/5" "/items/5" Sample.store
           (JObject [("name", JString "Y")]));
    reflexivity.
Defined.

(** POST at the clock reading 5, then DELETE /items/5, on a store that has
    no item of id 5. *)
Lemma delete_undoes_post_witness :
  strict_eq (Date_now 5) (path_id "/items/5") = true /\
  snd (Sample.listener 6 delete5
         (snd (Sample.listener 5
                 (Sample.request "POST" "/items" [Sample.name_body "X"])
                 [Sample.item 7 "a"])))
  = [Sample.item 7 "a"].
Proof.
  split; [reflexivity|].
  apply (delete_undoes_post Sample.url_parse Sample.Buffer_toString
           Sample.JSON_parse doc 5 6
           (Sample.request "POST" "/items" [Sample.name_body "X"]) delete5
           "/items/5" [Sample.item 7 "a"] (JObject [("name", JString "X")]));
    try reflexivity; [discriminate|].
  intros item [<- | []]. reflexivity.
Defined.

Lemma put_keeps_ids_witness :
  map id (snd (Sample.listener 9 put5 Sample.store)) = map id Sample.store.
Proof.
  apply (put_keeps_ids Sample.url_parse Sample.Buffer_toString
           Sample.JSON_parse doc 9 put5 "/items/5" Sample.store);
    reflexivity.
Defined.

(** The third item of the sample store stands behind the second, of the
    same id 5. *)
Lemma put_skips_shadowed_item_witness :
  nth_error (snd (Sample.listener 9 put5 Sample.store)) 2
  = Some (Sample.item 5 "c").
Proof.
  apply (put_skips_shadowed_item Sample.url_parse Sample.Buffer_toString
           Sample.JSON_parse doc 9 put5 "/items/5" Sample.store 1 2
           (Sample.item 5 "b") (Sample.item 5 "c"));
    solve [reflexivity | repeat constructor].
Defined.

(** PUT /items/ with nothing after the last [/], with the body of the name
    Y and with a body that is no JSON text. *)
Lemma put_nan_id_finds_nothing_witness :
  path_id "/items/" = nan /\
  Sample.listener 9
    (Sample.request "PUT" "/items/" [Sample.name_body "Y"]) Sample.store
  = (Some (json_response 404 (JsonMessage "Item not found")), Sample.store) /\
  Sample.listener 9 (Sample.request "PUT" "/items/" ["{"]) Sample.store
  = (Some (json_response 400 (JsonMessage "Invalid request")), Sample.store).
Proof.
  split; [reflexivity|]. split.
  - exact (eq_trans
             (proj1 (put_nan_id_finds_nothing Sample.url_parse
                       Sample.Buffer_toString Sample.JSON_parse doc 9
                       (Sample.request "PUT" "/items/" [Sample.name_body "Y"])
                       "/items/" Sample.store eq_refl eq_refl eq_refl eq_refl))
             eq_refl).
  - exact (eq_trans
             (proj1 (put_nan_id_finds_nothing Sample.url_parse
                       Sample.Buffer_toString Sample.JSON_parse doc 9
                       (Sample.request "PUT" "/items/" ["{"])
                       "/items/" Sample.store eq_refl eq_refl eq_refl eq_refl))
             eq_refl).
Defined.

Lemma path_id_reads_third_segment_witness :
  path_id "/items/42" = parseInt "42" /\
  path_id "/items/42/edit/now" = parseInt "42".
Proof.
  assert (H : ~ In "/"%char (list_ascii_of_string "42"))
    by (cbn; intuition discriminate).
  split.
  - apply (path_id_reads_third_segment "42" H).
  - apply (proj2 (path_id_reads_third_segment "42" H) "edit/now").
Defined.

(** PUT or DELETE on [/items/12abc/x] is for the item of id 12. *)
Lemma path_id_reads_leading_digits_witness :
  path_id "/items/12abc/x" = path_id "/items/12" /\
  strict_eq (path_id "/items/12abc/x") 12 = true.
Proof.
  split; [|reflexivity].
  apply (path_id_reads_leading_digits "12" "a" "bc/x").
  - discriminate.
  - repeat constructor; discriminate.
  - reflexivity.
Defined.

Lemma final_agrees_with_basic_witness :
  (forall remainder Math_pow,
      Calculator.Calculate remainder Math_pow 6 3 "div"
      = Basic.Calculate remainder 6 3 "div") /\
  (forall remainder Math_pow,
      Calculator.Calculate remainder Math_pow 6 0 "mod"
      = Basic.Calculate remainder 6 0 "mod").
Proof.
  split; intros remainder Math_pow.
  - apply (final_agrees_with_basic remainder Math_pow 6 3 "div");
      solve [discriminate | reflexivity].
  - apply (final_agrees_with_basic remainder Math_pow 6 0 "mod");
      discriminate.
Defined.

(** [Calculate(1, 0, "div")] and [Calculate(0, -0, "div")] in the earlier
    files. *)
Lemma basic_divides_by_zero_witness :
  (forall remainder,
      Basic.Calculate remainder 1 0 "div" = Calculator.Num infinity) /\
  (forall remainder,
      Basic.Calculate remainder 0 (-0) "div" = Calculator.Num nan) /\
  (forall remainder Math_pow,
      Calculator.Calculate remainder Math_pow 1 0 "div"
      = Calculator.Msg "Error: Division by zero!").
Proof.
  split; [reflexivity|]. split; [reflexivity|].
  intros remainder Math_pow.
  apply (basic_divides_by_zero remainder Math_pow 1 0). reflexivity.
Defined.

(** [node final1.js 9] and [node final1.js 9 sqrt], for a [Number] that
    reads [9] and takes the other strings here for no number. *)
Lemma main_asks_for_numbers_witness :
  (forall Number_of_string remainder Math_pow,
      Cli.main Number_of_string remainder Math_pow ["node"; "final1.js"; "9"]
      = Calculator.Msg "Error: Please provide valid numbers.") /\
  (forall remainder Math_pow,
      Cli.main (fun s => if s =? "9" then 9%float else nan) remainder Math_pow
        ["node"; "final1.js"; "9"; "sqrt"]
      = Calculator.Msg "Error: Please provide valid numbers.").
Proof.
  split.
  - intros Number_of_string remainder Math_pow.
    apply (proj1 (main_asks_for_numbers Number_of_string remainder Math_pow
                    ["node"; "final1.js"; "9"])). cbn. lia.
  - intros remainder Math_pow.
    apply (proj2 (main_asks_for_numbers
                    (fun s => if s =? "9" then 9%float else nan)
                    remainder Math_pow ["node"; "final1.js"; "9"; "sqrt"]));
      reflexivity.
Defined.

(** The form submitted with the input [  X ], and with a blank one. *)
Lemma submit_stores_trimmed_name_witness :
  Ui.trim "  X " = "X" /\
  (forall Number_toString,
      Ui.session Sample.name_body Number_toString Sample.url_parse
        Sample.Buffer_toString Sample.JSON_parse doc [(10%Z, Ui.Submit "  X ")] Sample.store
      = (Sample.store
           ++ [{| id := Date_now 10; name := VJson (JString "X") |}])%list) /\
  (forall Number_toString,
      Ui.session Sample.name_body Number_toString Sample.url_parse
        Sample.Buffer_toString Sample.JSON_parse doc [(10%Z, Ui.Submit "   ")] Sample.store
      = Sample.store).
Proof.
  split; [reflexivity|]. split; intro Number_toString.
  - apply (submit_stores_trimmed_name Sample.name_body Number_toString
             Sample.url_parse Sample.Buffer_toString Sample.JSON_parse doc 10 "  X " Sample.store);
      solve [reflexivity | discriminate].
  - apply (submit_stores_trimmed_name Sample.name_body Number_toString
             Sample.url_parse Sample.Buffer_toString Sample.JSON_parse doc 10 "   " Sample.store);
      reflexivity.
Defined.

(** A page that adds [X], renames it [Y] and fetches the list.  The one
    number the page writes in a path is the id 10, whose text is [10]. *)
Lemma page_names_are_strings_witness :
  forallb
    (fun item => is_string (name item))
    (Ui.session Sample.name_body (fun _ => "10") Sample.url_parse
       Sample.Buffer_toString Sample.JSON_parse doc
       [(10%Z, Ui.Submit " X");
        (11%Z, Ui.Update {| id := Date_now 10; name := VJson (JString "X") |}
                 (Some "Y"));
        (12%Z, Ui.FetchItems)] [])
  = true /\
  exists s, VJson (JString "Y") = VJson (JString s) /\ s <> "".
Proof.
  split; [reflexivity|].
  apply (page_names_are_strings Sample.name_body (fun _ => "10")
           Sample.url_parse Sample.Buffer_toString Sample.JSON_parse doc
           [(10%Z, Ui.Submit " X");
            (11%Z, Ui.Update {| id := Date_now 10; name := VJson (JString "X") |}
                     (Some "Y"));
            (12%Z, Ui.FetchItems)]
           {| id := Date_now 10; name := VJson (JString "Y") |}).
  - reflexivity.
  - intros c a s [[= <- <-] | [[= <- <-] | [[= <- <-] | []]]]; cbn;
      intros [= <-]; reflexivity.
  - left. reflexivity.
Defined.

End MoreExamples.
